(** * SPI panel drivers ILI9806E and ST7789V: a shallow embedding

    The two drivers are glue code: every function is a straight line of
    calls into the kernel (GPIO consumer API, MIPI DBI helpers, DRM core)
    with a handful of early returns.  The embedding keeps that shape.
    A driver function is a computation in a state monad whose state is the
    log of kernel calls made so far, each paired with the value the kernel
    returned; the kernel itself is an environment that answers every call
    from the history.  What a driver does is then what it appends to the
    log, and what it returns. *)

From Stdlib Require Import ZArith List Ascii String Bool Lia DecimalString.
From ExtLib Require Import Structures.Monad Structures.MonadState.
From ExtLib Require Import Data.Monads.StateMonad.
Import ListNotations.
Import MonadNotation.
Local Open Scope monad_scope.
Local Open Scope Z_scope.

(** ** Kernel side *)

Module Kernel.

(** include/linux/err.h and the errno values the drivers name or meet.
    Pointers are signed machine words: an error pointer is one of the
    last [MAX_ERRNO] addresses, that is a value in [-MAX_ERRNO, -1]. *)
Definition NULL : Z := 0.
Definition MAX_ERRNO : Z := 4095.
Definition ENOENT : Z := 2.
Definition EIO : Z := 5.
Definition ENOMEM : Z := 12.

Definition IS_ERR (ptr : Z) : bool := (- MAX_ERRNO <=? ptr) && (ptr <? 0).
Definition PTR_ERR (ptr : Z) : Z := ptr.

(** [BIT(n)] and the conversion to [u8] that an assignment to a [u8] or
    [uint8_t] object performs. *)
Definition BIT (n : Z) : Z := Z.shiftl 1 n.
Definition u8 (x : Z) : Z := x mod 256.

(** Modelled from the spec: the MIPI DCS command numbers of
    include/video/mipi_display.h, which is not under src/.  The spec only
    names the commands (sleep, display on/off); the values are those of the
    MIPI DCS standard and no theorem depends on them beyond their being
    bytes. *)
Definition MIPI_DCS_ENTER_SLEEP_MODE : Z := 0x10.
Definition MIPI_DCS_EXIT_SLEEP_MODE : Z := 0x11.
Definition MIPI_DCS_ENTER_NORMAL_MODE : Z := 0x13.
Definition MIPI_DCS_SET_DISPLAY_OFF : Z := 0x28.
Definition MIPI_DCS_SET_DISPLAY_ON : Z := 0x29.
Definition MIPI_DCS_SET_TEAR_ON : Z := 0x35.
Definition MIPI_DCS_SET_ADDRESS_MODE : Z := 0x36.
Definition MIPI_DCS_SET_PIXEL_FORMAT : Z := 0x3A.

Inductive gpiod_flags : Set := GPIOD_OUT_LOW | GPIOD_OUT_HIGH.

(** The line feed the drivers end their error messages with. *)
Definition LF : string := String "010"%char EmptyString.

(** The kernel entry points the two drivers call, with the arguments that
    matter and, for the two calls that write through a pointer argument,
    the value written ([idx], [out]). *)
Inductive call : Set :=
| Gpiod_set_value (desc value : Z)
| Usleep_range (min max : Z)
| Msleep (msecs : Z)
| Mipi_dbi_command (cmd : Z) (data : list Z)
| Devm_kzalloc
| Drm_panel_init
| Spi_set_drvdata
| Devm_gpiod_get (con_id : string) (flags : gpiod_flags)
| Devm_gpiod_get_optional (con_id : string) (flags : gpiod_flags)
| Dev_err_probe (err : Z) (msg : string)
| Drm_panel_of_backlight
| Mipi_dbi_spi_init (dc : Z)
| Drm_panel_add
| Drm_dev_enter (idx : Z)
| Drm_dev_exit (idx : Z)
| DRM_DEBUG_KMS
| Mipi_dbi_poweron_reset
| Mipi_dbi_enable_flush
| Devm_drm_dev_alloc
| DRM_DEV_ERROR (msg : string)
| Devm_of_find_backlight
| Device_property_read_u32 (propname : string) (out : Z)
| Mipi_dbi_dev_init (rotation : Z)
| Drm_mode_config_reset
| Drm_dev_register
| Drm_fbdev_generic_setup
| Dev_info (msg : string).

(** The log: calls in the order they were made, each with its return value
    ([0] for a function returning [void]). *)
Definition klog : Type := list (call * Z).

Definition calls (l : klog) : list call := map fst l.

(** The environment: what a call returns, and what it writes through its
    pointer argument, given everything that happened before. *)
Record Env : Type := mkEnv
  { ret_val : klog -> call -> Z
  ; out_val : klog -> Z }.

Section Calls.
Variable e : Env.

Definition kcall (c : call) : state klog Z :=
    h <- get ;;
    let r := ret_val e h c in
    put (h ++ [(c, r)]) ;;
    ret r.

Definition kvoid (c : call) : state klog unit :=
    h <- get ;;
    put (h ++ [(c, 0)]).

Definition kout : state klog Z :=
    h <- get ;;
    ret (out_val e h).

Definition gpiod_set_value (desc value : Z) : state klog unit :=
    kvoid (Gpiod_set_value desc value).

Definition usleep_range (min max : Z) : state klog unit :=
    kvoid (Usleep_range min max).

Definition msleep (msecs : Z) : state klog unit :=
    kvoid (Msleep msecs).

  (** [mipi_dbi_command(dbi, cmd, seq...)] copies [seq] into a [u8] array
      and hands it to [mipi_dbi_command_stackbuf], whose status it returns. *)
Definition mipi_dbi_command (cmd : Z) (seq : list Z) : state klog Z :=
    kcall (Mipi_dbi_command (u8 cmd) (map u8 seq)).

  (** [dev_err_probe] reports and returns its [err] argument. *)
Definition dev_err_probe (err : Z) (msg : string) : state klog Z :=
    kvoid (Dev_err_probe err msg) ;;
    ret err.

Definition devm_gpiod_get (con_id : string) (flags : gpiod_flags)
    : state klog Z :=
    kcall (Devm_gpiod_get con_id flags).

Definition devm_gpiod_get_optional (con_id : string) (flags : gpiod_flags)
    : state klog Z :=
    kcall (Devm_gpiod_get_optional con_id flags).
End Calls.

(** Modelled from the spec: what [devm_gpiod_get] and
    [devm_gpiod_get_optional] of drivers/gpio/gpiolib-devres.c, which is not
    under src/, return for a line the device does not provide.  The spec
    calls the GPIO line of a control block optional and says no more; the
    two entry points differ as their names and their kernel documentation
    say: [devm_gpiod_get] returns [ERR_PTR(-ENOENT)], the optional variant
    returns [NULL]. *)
Definition absent_line_answer (c : call) : option Z :=
  match c with
  | Devm_gpiod_get _ _ => Some (- ENOENT)
  | Devm_gpiod_get_optional _ _ => Some NULL
  | _ => None
  end.

(** The device behind a log provides no GPIO line at all. *)
Definition no_gpio_line (l : klog) : Prop :=
  forall c r v, In (c, r) l -> absent_line_answer c = Some v -> r = v.

(** The resources a probe function acquires, by the call that acquires
    them. *)
Inductive resource : Set := Reset_gpio | Dc_gpio | Backlight | Spi_bus.

Definition acquires (c : call) : option resource :=
  match c with
  | Devm_gpiod_get con_id _ | Devm_gpiod_get_optional con_id _ =>
      if String.eqb con_id "reset" then Some Reset_gpio
      else if String.eqb con_id "dc" then Some Dc_gpio
      else None
  | Drm_panel_of_backlight | Devm_of_find_backlight => Some Backlight
  | Mipi_dbi_spi_init _ => Some Spi_bus
  | _ => None
  end.

(** A call that hands back a pointer fails by handing back an error
    pointer ([devm_kzalloc]: [NULL]); a call that hands back an [int]
    status fails with a negative one.  Calls returning [void] never fail. *)
Definition failed (c : call) (r : Z) : bool :=
  match c with
  | Devm_kzalloc => r =? NULL
  | Devm_gpiod_get _ _ | Devm_gpiod_get_optional _ _
  | Devm_drm_dev_alloc | Devm_of_find_backlight => IS_ERR r
  | Mipi_dbi_command _ _ | Drm_panel_of_backlight | Mipi_dbi_spi_init _
  | Mipi_dbi_poweron_reset | Device_property_read_u32 _ _
  | Mipi_dbi_dev_init _ | Drm_dev_register => r <? 0
  | _ => false
  end.

(** The display-framework registration of either driver. *)
Definition registers (c : call) : bool :=
  match c with
  | Drm_panel_add | Drm_dev_register => true
  | _ => false
  end.

(** The bus commands among a list of calls. *)
Definition bus_commands (l : list call) : list (Z * list Z) :=
  flat_map (fun c => match c with
                     | Mipi_dbi_command cmd data => [(cmd, data)]
                     | _ => []
                     end) l.

Definition failed_bus_commands (l : klog) : klog :=
  filter (fun cr => match fst cr with
                    | Mipi_dbi_command _ _ => failed (fst cr) (snd cr)
                    | _ => false
                    end) l.

(** [issues m P l]: from any history, [m] runs to completion, extends the
    log by exactly the calls [l] and returns a value satisfying [P]. *)
Definition issues {A : Type} (m : state klog A) (P : A -> Prop)
  (l : list call) : Prop :=
  forall h, exists a new,
    runState m h = (a, h ++ new) /\ P a /\ calls new = l.

(** Environments to run the drivers in.  [answer_ok] lets every call
    succeed; the others change the answer of one kind of call. *)
Definition answer_ok (c : call) : Z :=
  match c with
  | Devm_kzalloc | Devm_drm_dev_alloc => 0x1000
  | Devm_gpiod_get _ _ | Devm_gpiod_get_optional _ _ => 0x2000
  | Devm_of_find_backlight => 0x3000
  | Drm_dev_enter _ => 1
  | _ => 0
  end.

Definition env_of (answer : call -> Z) : Env :=
  mkEnv (fun _ c => answer c) (fun _ => 0).

Definition env_ok : Env := env_of answer_ok.

Definition env_bus_eio : Env :=
  env_of (fun c => match c with
                   | Mipi_dbi_command _ _ => - EIO
                   | _ => answer_ok c
                   end).

Definition env_no_gpio : Env :=
  env_of (fun c => match absent_line_answer c with
                   | Some v => v
                   | None => answer_ok c
                   end).


Definition env_spi_eio : Env :=
  env_of (fun c => match c with
                   | Mipi_dbi_spi_init _ => - EIO
                   | _ => answer_ok c
                   end).

Definition env_reset_eio : Env :=
  env_of (fun c => match c with
                   | Mipi_dbi_poweron_reset => - EIO
                   | _ => answer_ok c
                   end).

End Kernel.

(** ** panel-ilitek-ili9806e.c *)

Module Ili9806e.
Import Kernel.

Definition ILI9806E_P1_IFMODE1 : Z := 0x08.
Definition IFMODE1_SEPT_SDIO : Z := BIT 3.
Definition IFMODE1_SDO_STATUS : Z := BIT 4.
Definition ILI9806E_P1_DISCTRL1 : Z := 0x20.
Definition DISCTRL1_SYNC_MODE : Z := BIT 0.
Definition ILI9806E_P1_DISCTRL2 : Z := 0x21.
Definition DISCTRL2_EPL : Z := BIT 0.
Definition DISCTRL2_DPL : Z := BIT 1.
Definition DISCTRL2_HSPL : Z := BIT 2.
Definition DISCTRL2_VSPL : Z := BIT 3.
Definition ILI9806E_P1_RESCTRL : Z := 0x30.
Definition RESCTRL_480x864 : Z := 0x0.
Definition RESCTRL_480x854 : Z := 0x1.
Definition RESCTRL_480x800 : Z := 0x2.
Definition RESCTRL_480x640 : Z := 0x3.
Definition RESCTRL_480x720 : Z := 0x4.
Definition ILI9806E_P1_INVTR : Z := 0x31.
Definition INVTR_NLA_COLUMN : Z := 0x0.
Definition INVTR_NLA_1DOT : Z := 0x1.
Definition INVTR_NLA_2DOT : Z := 0x2.
Definition INVTR_NLA_3DOT : Z := 0x3.
Definition INVTR_NLA_4DOT : Z := 0x4.
Definition ILI9806E_P1_PWCTRL1 : Z := 0x40.
Definition ILI9806E_P1_PWCTRL2 : Z := 0x41.
Definition ILI9806E_P1_PWCTRL3 : Z := 0x42.
Definition ILI9806E_P1_PWCTRL4 : Z := 0x43.
Definition ILI9806E_P1_PWCTRL5 : Z := 0x44.
Definition ILI9806E_P1_PWCTRL6 : Z := 0x45.
Definition ILI9806E_P1_PWCTRL7 : Z := 0x46.
Definition ILI9806E_P1_PWCTRL8 : Z := 0x47.
Definition ILI9806E_P1_PWCTRL9 : Z := 0x50.
Definition ILI9806E_P1_PWCTRL10 : Z := 0x51.
Definition ILI9806E_P1_VMCTRL1 : Z := 0x52.
Definition ILI9806E_P1_VMCTRL2 : Z := 0x53.
Definition ILI9806E_P1_SRCTADJ1 : Z := 0x60.
Definition ILI9806E_P1_SRCTADJ2 : Z := 0x61.
Definition ILI9806E_P1_SRCTADJ3 : Z := 0x62.
Definition ILI9806E_P1_SRCTADJ4 : Z := 0x63.
Definition ILI9806E_P1_P_GAMMA (n : Z) : Z := 0xa0 + n - 1.
Definition ILI9806E_P1_N_GAMMA (n : Z) : Z := 0xc0 + n - 1.

Definition ILI9806E_P7_VGLREGEN : Z := 0x17.
Definition ILI9806E_P7_0x02 : Z := 0x02.
Definition ILI9806E_P7_0xe1 : Z := 0xe1.

Definition ILI9806E_Px_ENEXTC : Z := 0xff.

(** [struct mipi_dbi] as far as the driver touches it: the reset line. *)
Record mipi_dbi : Set := { reset : Z }.

(** [struct ili9806e]; the embedded [drm_panel] carries nothing the driver
    reads back. *)
Record ili9806e : Set := { dbi : mipi_dbi }.

Section Driver.
Variable e : Env.

Local Abbreviation mipi_dbi_command := (Kernel.mipi_dbi_command e).
Local Abbreviation kcall := (Kernel.kcall e).
Local Abbreviation devm_gpiod_get := (Kernel.devm_gpiod_get e).

Definition ili9806e_switch_page (ctx : ili9806e) (page : Z) : state klog Z :=
    mipi_dbi_command ILI9806E_Px_ENEXTC [0xff; 0x98; 0x06; 0x04; page].

Definition ili9806e_unprepare (ctx : ili9806e) : state klog Z :=
    mipi_dbi_command MIPI_DCS_SET_DISPLAY_OFF [0x00] ;;
    mipi_dbi_command MIPI_DCS_ENTER_SLEEP_MODE [0x00] ;;
    ret 0.

Definition ili9806e_prepare (ctx : ili9806e) : state klog Z :=
    (* Reset *)
    gpiod_set_value (reset (dbi ctx)) 1 ;;
    usleep_range 15 50 ;;
    gpiod_set_value (reset (dbi ctx)) 0 ;;
    msleep 125 ;;
    (* Init sequence *)
    ili9806e_switch_page ctx 1 ;;

    mipi_dbi_command ILI9806E_P1_IFMODE1 [IFMODE1_SDO_STATUS] ;;
    mipi_dbi_command ILI9806E_P1_DISCTRL2 [DISCTRL2_EPL] ;;
    mipi_dbi_command ILI9806E_P1_RESCTRL [RESCTRL_480x800] ;;
    mipi_dbi_command ILI9806E_P1_INVTR [INVTR_NLA_COLUMN] ;;

    mipi_dbi_command ILI9806E_P1_PWCTRL1 [0x10] ;;
    mipi_dbi_command ILI9806E_P1_PWCTRL2 [0x55] ;;
    mipi_dbi_command ILI9806E_P1_PWCTRL3 [0x02] ;;
    mipi_dbi_command ILI9806E_P1_PWCTRL4 [0x09] ;;
    mipi_dbi_command ILI9806E_P1_PWCTRL5 [0x07] ;;
    mipi_dbi_command ILI9806E_P1_PWCTRL9 [0x78] ;;
    mipi_dbi_command ILI9806E_P1_PWCTRL10 [0x78] ;;

    mipi_dbi_command ILI9806E_P1_VMCTRL1 [0x00] ;;
    mipi_dbi_command ILI9806E_P1_VMCTRL2 [0x6d] ;;

    mipi_dbi_command ILI9806E_P1_SRCTADJ1 [0x07] ;;
    mipi_dbi_command ILI9806E_P1_SRCTADJ2 [0x00] ;;
    mipi_dbi_command ILI9806E_P1_SRCTADJ3 [0x08] ;;
    mipi_dbi_command ILI9806E_P1_SRCTADJ4 [0x00] ;;

    mipi_dbi_command (ILI9806E_P1_P_GAMMA 1) [0x00] ;;
    mipi_dbi_command (ILI9806E_P1_P_GAMMA 2) [0x07] ;;
    mipi_dbi_command (ILI9806E_P1_P_GAMMA 3) [0x0c] ;;
    mipi_dbi_command (ILI9806E_P1_P_GAMMA 4) [0x0b] ;;
    mipi_dbi_command (ILI9806E_P1_P_GAMMA 5) [0x03] ;;
    mipi_dbi_command (ILI9806E_P1_P_GAMMA 6) [0x07] ;;
    mipi_dbi_command (ILI9806E_P1_P_GAMMA 7) [0x06] ;;
    mipi_dbi_command (ILI9806E_P1_P_GAMMA 8) [0x04] ;;
    mipi_dbi_command (ILI9806E_P1_P_GAMMA 9) [0x08] ;;
    mipi_dbi_command (ILI9806E_P1_P_GAMMA 10) [0x0c] ;;
    mipi_dbi_command (ILI9806E_P1_P_GAMMA 11) [0x13] ;;
    mipi_dbi_command (ILI9806E_P1_P_GAMMA 12) [0x06] ;;
    mipi_dbi_command (ILI9806E_P1_P_GAMMA 13) [0x0d] ;;
    mipi_dbi_command (ILI9806E_P1_P_GAMMA 14) [0x19] ;;
    mipi_dbi_command (ILI9806E_P1_P_GAMMA 15) [0x10] ;;
    mipi_dbi_command (ILI9806E_P1_P_GAMMA 16) [0x00] ;;

    mipi_dbi_command (ILI9806E_P1_N_GAMMA 1) [0x00] ;;
    mipi_dbi_command (ILI9806E_P1_N_GAMMA 2) [0x07] ;;
    mipi_dbi_command (ILI9806E_P1_N_GAMMA 3) [0x0c] ;;
    mipi_dbi_command (ILI9806E_P1_N_GAMMA 4) [0x0b] ;;
    mipi_dbi_command (ILI9806E_P1_N_GAMMA 5) [0x03] ;;
    mipi_dbi_command (ILI9806E_P1_N_GAMMA 6) [0x07] ;;
    mipi_dbi_command (ILI9806E_P1_N_GAMMA 7) [0x07] ;;
    mipi_dbi_command (ILI9806E_P1_N_GAMMA 8) [0x04] ;;
    mipi_dbi_command (ILI9806E_P1_N_GAMMA 9) [0x08] ;;
    mipi_dbi_command (ILI9806E_P1_N_GAMMA 10) [0x0c] ;;
    mipi_dbi_command (ILI9806E_P1_N_GAMMA 11) [0x13] ;;
    mipi_dbi_command (ILI9806E_P1_N_GAMMA 12) [0x06] ;;
    mipi_dbi_command (ILI9806E_P1_N_GAMMA 13) [0x0d] ;;
    mipi_dbi_command (ILI9806E_P1_N_GAMMA 14) [0x18] ;;
    mipi_dbi_command (ILI9806E_P1_N_GAMMA 15) [0x10] ;;
    mipi_dbi_command (ILI9806E_P1_N_GAMMA 16) [0x00] ;;

    ili9806e_switch_page ctx 6 ;;

    mipi_dbi_command 0x00 [0x20] ;;
    mipi_dbi_command 0x01 [0x0a] ;;
    mipi_dbi_command 0x02 [0x00] ;;
    mipi_dbi_command 0x03 [0x00] ;;
    mipi_dbi_command 0x04 [0x01] ;;
    mipi_dbi_command 0x05 [0x01] ;;
    mipi_dbi_command 0x06 [0x98] ;;
    mipi_dbi_command 0x07 [0x06] ;;
    mipi_dbi_command 0x08 [0x01] ;;
    mipi_dbi_command 0x09 [0x80] ;;
    mipi_dbi_command 0x0a [0x00] ;;
    mipi_dbi_command 0x0b [0x00] ;;
    mipi_dbi_command 0x0c [0x01] ;;
    mipi_dbi_command 0x0d [0x01] ;;
    mipi_dbi_command 0x0e [0x00] ;;
    mipi_dbi_command 0x0f [0x00] ;;
    mipi_dbi_command 0x10 [0xf0] ;;
    mipi_dbi_command 0x11 [0xf4] ;;
    mipi_dbi_command 0x12 [0x01] ;;
    mipi_dbi_command 0x13 [0x00] ;;
    mipi_dbi_command 0x14 [0x00] ;;
    mipi_dbi_command 0x15 [0xc0] ;;
    mipi_dbi_command 0x16 [0x08] ;;
    mipi_dbi_command 0x17 [0x00] ;;
    mipi_dbi_command 0x18 [0x00] ;;
    mipi_dbi_command 0x19 [0x00] ;;
    mipi_dbi_command 0x1a [0x00] ;;
    mipi_dbi_command 0x1b [0x00] ;;
    mipi_dbi_command 0x1c [0x00] ;;
    mipi_dbi_command 0x1d [0x00] ;;
    mipi_dbi_command 0x20 [0x01] ;;
    mipi_dbi_command 0x21 [0x23] ;;
    mipi_dbi_command 0x22 [0x45] ;;
    mipi_dbi_command 0x23 [0x67] ;;
    mipi_dbi_command 0x24 [0x01] ;;
    mipi_dbi_command 0x25 [0x23] ;;
    mipi_dbi_command 0x26 [0x45] ;;
    mipi_dbi_command 0x27 [0x67] ;;
    mipi_dbi_command 0x30 [0x11] ;;
    mipi_dbi_command 0x31 [0x11] ;;
    mipi_dbi_command 0x32 [0x00] ;;
    mipi_dbi_command 0x33 [0xee] ;;
    mipi_dbi_command 0x34 [0xff] ;;
    mipi_dbi_command 0x35 [0xbb] ;;
    mipi_dbi_command 0x36 [0xaa] ;;
    mipi_dbi_command 0x37 [0xdd] ;;
    mipi_dbi_command 0x38 [0xcc] ;;
    mipi_dbi_command 0x39 [0x66] ;;
    mipi_dbi_command 0x3a [0x77] ;;
    mipi_dbi_command 0x3b [0x22] ;;
    mipi_dbi_command 0x3c [0x22] ;;
    mipi_dbi_command 0x3d [0x22] ;;
    mipi_dbi_command 0x3e [0x22] ;;
    mipi_dbi_command 0x3f [0x22] ;;
    mipi_dbi_command 0x40 [0x22] ;;
    mipi_dbi_command 0x52 [0x10] ;;
    mipi_dbi_command 0x53 [0x10] ;;

    ili9806e_switch_page ctx 7 ;;

    mipi_dbi_command ILI9806E_P7_VGLREGEN [0x22] ;;
    mipi_dbi_command ILI9806E_P7_0x02 [0x77] ;;
    mipi_dbi_command ILI9806E_P7_0xe1 [0x79] ;;

    ili9806e_switch_page ctx 0 ;;

    mipi_dbi_command MIPI_DCS_SET_TEAR_ON [] ;;
    mipi_dbi_command MIPI_DCS_EXIT_SLEEP_MODE [] ;;

    msleep 120 ;;

    mipi_dbi_command MIPI_DCS_SET_DISPLAY_ON [] ;;

    ret 0.

  (** Built under [CONFIG_PM_SLEEP]. *)
Definition ili9806e_suspend (ctx : ili9806e) : state klog Z :=
    mipi_dbi_command MIPI_DCS_SET_DISPLAY_OFF [0x00] ;;
    mipi_dbi_command MIPI_DCS_ENTER_SLEEP_MODE [0x00] ;;
    ret 0.

Definition ili9806e_resume (ctx : ili9806e) : state klog Z :=
    mipi_dbi_command MIPI_DCS_EXIT_SLEEP_MODE [0x00] ;;
    msleep 120 ;;
    mipi_dbi_command MIPI_DCS_SET_DISPLAY_ON [0x00] ;;
    ret 0.

Definition ili9806e_probe : state klog Z :=
    ctx <- kcall Devm_kzalloc ;;
    if ctx =? NULL then ret (- ENOMEM) else
    kvoid Drm_panel_init ;;
    kvoid Spi_set_drvdata ;;
    reset <- devm_gpiod_get "reset" GPIOD_OUT_LOW ;;
    if IS_ERR reset then
      dev_err_probe (PTR_ERR reset) ("cannot get reset-gpios" ++ LF)%string
    else
    err <- kcall Drm_panel_of_backlight ;;
    if negb (err =? 0) then
      dev_err_probe err ("Failed to get backlight" ++ LF)%string
    else
    err <- kcall (Mipi_dbi_spi_init NULL) ;;
    if negb (err =? 0) then
      dev_err_probe err ("MIPI DBI init failed" ++ LF)%string
    else
    kvoid Drm_panel_add ;;
    ret 0.
End Driver.

(** What a run of [ili9806e_probe] can append to the log, and return: one
    case per [return] of the function. *)
Definition ili9806e_probe_setup (ctx : Z) : klog :=
  [ (Devm_kzalloc, ctx); (Drm_panel_init, 0); (Spi_set_drvdata, 0) ].

Inductive ili9806e_probe_outcome : Z -> klog -> Prop :=
| ili_no_memory :
    ili9806e_probe_outcome (- ENOMEM) [ (Devm_kzalloc, NULL) ]
| ili_no_reset ctx rst :
    ctx <> NULL -> IS_ERR rst = true ->
    ili9806e_probe_outcome rst
      (ili9806e_probe_setup ctx ++
       [ (Devm_gpiod_get "reset" GPIOD_OUT_LOW, rst)
       ; (Dev_err_probe rst ("cannot get reset-gpios" ++ LF)%string, 0) ])
| ili_no_backlight ctx rst err :
    ctx <> NULL -> IS_ERR rst = false -> err <> 0 ->
    ili9806e_probe_outcome err
      (ili9806e_probe_setup ctx ++
       [ (Devm_gpiod_get "reset" GPIOD_OUT_LOW, rst)
       ; (Drm_panel_of_backlight, err)
       ; (Dev_err_probe err ("Failed to get backlight" ++ LF)%string, 0) ])
| ili_no_bus ctx rst err :
    ctx <> NULL -> IS_ERR rst = false -> err <> 0 ->
    ili9806e_probe_outcome err
      (ili9806e_probe_setup ctx ++
       [ (Devm_gpiod_get "reset" GPIOD_OUT_LOW, rst)
       ; (Drm_panel_of_backlight, 0)
       ; (Mipi_dbi_spi_init NULL, err)
       ; (Dev_err_probe err ("MIPI DBI init failed" ++ LF)%string, 0) ])
| ili_added ctx rst :
    ctx <> NULL -> IS_ERR rst = false ->
    ili9806e_probe_outcome 0
      (ili9806e_probe_setup ctx ++
       [ (Devm_gpiod_get "reset" GPIOD_OUT_LOW, rst)
       ; (Drm_panel_of_backlight, 0)
       ; (Mipi_dbi_spi_init NULL, 0)
       ; (Drm_panel_add, 0) ]).

(** A panel to run the power-state operations on, and the calls
    [ili9806e_prepare] makes when every call succeeds, from an empty
    history. *)
Definition panel_with_reset (rst : Z) : ili9806e :=
  {| dbi := {| reset := rst |} |}.

Definition ili9806e_prepare_calls (rst : Z) : list call :=
  calls (execState (ili9806e_prepare env_ok (panel_with_reset rst)) []).

(** The page a bus command selects, when it is a page switch: a write of
    the five bytes 0xff 0x98 0x06 0x04 [page] to [ILI9806E_Px_ENEXTC]. *)
Definition page_switch (c : Z * list Z) : option Z :=
  match c with
  | (cmd, [b0; b1; b2; b3; page]) =>
      if (cmd =? ILI9806E_Px_ENEXTC) && (b0 =? 0xff) && (b1 =? 0x98)
         && (b2 =? 0x06) && (b3 =? 0x04)
      then Some page else None
  | _ => None
  end.

Definition page_switches (l : list (Z * list Z)) : list Z :=
  flat_map (fun c => match page_switch c with
                     | Some p => [p]
                     | None => []
                     end) l.

(** Every bus command that is not a page switch, with the page selected
    at the time it is issued ([None] before the first switch). *)
Fixpoint paged (cur : option Z) (l : list (Z * list Z))
  : list (option Z * (Z * list Z)) :=
  match l with
  | [] => []
  | c :: l' =>
      match page_switch c with
      | Some p => paged (Some p) l'
      | None => (cur, c) :: paged cur l'
      end
  end.

Definition in_page (p : Z) (l : list (Z * list Z)) : list (Z * list Z) :=
  map snd (filter (fun x => match fst x with
                            | Some q => q =? p
                            | None => false
                            end) (paged None l)).

(** *** [ili9806e_get_modes]

    The function works on the connector, not on the bus, so its state is
    the connector. *)

(** Modelled from the spec: constants of include/uapi/drm/drm_mode.h,
    include/drm/drm_modes.h and include/uapi/linux/media-bus-format.h,
    none of them under src/; the spec does not give them and no theorem
    depends on their values. *)
Definition DRM_MODE_FLAG_NHSYNC : Z := Z.shiftl 1 1.
Definition DRM_MODE_FLAG_NVSYNC : Z := Z.shiftl 1 3.
Definition DRM_MODE_FLAG_INTERLACE : Z := Z.shiftl 1 4.
Definition DRM_MODE_TYPE_PREFERRED : Z := Z.shiftl 1 3.
Definition DRM_MODE_TYPE_DRIVER : Z := Z.shiftl 1 6.
Definition MEDIA_BUS_FMT_RGB666_1X18 : Z := 0x1009.

Definition ILI9806E_BUS_FORMAT : Z := MEDIA_BUS_FMT_RGB666_1X18.

Record drm_display_mode : Set := mkMode
  { clock : Z
  ; hdisplay : Z
  ; hsync_start : Z
  ; hsync_end : Z
  ; htotal : Z
  ; vdisplay : Z
  ; vsync_start : Z
  ; vsync_end : Z
  ; vtotal : Z
  ; flags : Z
  ; type : Z
  ; width_mm : Z
  ; height_mm : Z
  ; name : string }.

Definition nds040480800_v3_mode : drm_display_mode :=
  {| width_mm := 51
   ; height_mm := 85
   ; clock := 30000
   ; hdisplay := 480
   ; hsync_start := 480 + 25
   ; hsync_end := 480 + 25 + 54
   ; htotal := 480 + 25 + 54 + 25
   ; vdisplay := 800
   ; vsync_start := 800 + 25
   ; vsync_end := 800 + 25 + 14
   ; vtotal := 800 + 25 + 14 + 22
   ; flags := Z.lor DRM_MODE_FLAG_NHSYNC DRM_MODE_FLAG_NVSYNC
   ; type := Z.lor DRM_MODE_TYPE_PREFERRED DRM_MODE_TYPE_DRIVER
   ; name := "" |}.

Record drm_display_info : Set :=
  { info_width_mm : Z
  ; info_height_mm : Z
  ; bus_formats : list Z }.

(** [probed_modes] is the kernel list the connector collects modes in;
    [drm_mode_probed_add] links a mode at its tail. *)
Record drm_connector : Set :=
  { display_info : drm_display_info
  ; probed_modes : list drm_display_mode }.

Section GetModes.
  (** Whether the allocation inside [drm_mode_duplicate], and the one
      inside [drm_display_info_set_bus_formats], succeeds. *)
Variables mode_alloc_ok formats_alloc_ok : bool.

  (** Modelled from the spec: [drm_mode_duplicate], [drm_mode_set_name],
      [drm_display_info_set_bus_formats] and [drm_mode_probed_add] of
      drivers/gpu/drm, not under src/.  The spec says a display mode is
      registered with the display subsystem; the helpers do what their
      kernel documentation says: copy the mode or return [NULL], name it
      [<hdisplay>x<vdisplay>] with an [i] when interlaced, replace the bus
      formats unless the copy cannot be allocated, append to the list. *)
Definition drm_mode_duplicate (mode : drm_display_mode)
    : option drm_display_mode :=
    if mode_alloc_ok then Some mode else None.

(** The [%d] of the [snprintf] in [drm_mode_set_name]. *)
Definition decimal (z : Z) : string :=
    NilZero.string_of_int (Z.to_int z).

Definition drm_mode_set_name (mode : drm_display_mode) : drm_display_mode :=
    let interlaced := negb (Z.land (flags mode) DRM_MODE_FLAG_INTERLACE =? 0) in
    let n := (decimal (hdisplay mode) ++ "x" ++ decimal (vdisplay mode)
              ++ (if interlaced then "i" else ""))%string in
    mkMode (clock mode) (hdisplay mode) (hsync_start mode) (hsync_end mode)
           (htotal mode) (vdisplay mode) (vsync_start mode) (vsync_end mode)
           (vtotal mode) (flags mode) (type mode) (width_mm mode)
           (height_mm mode) n.

Definition drm_display_info_set_bus_formats (formats : list Z)
    : state drm_connector Z :=
    c <- get ;;
    if formats_alloc_ok then
      put {| display_info :=
               {| info_width_mm := info_width_mm (display_info c)
                ; info_height_mm := info_height_mm (display_info c)
                ; bus_formats := formats |}
           ; probed_modes := probed_modes c |} ;;
      ret 0
    else ret (- ENOMEM).

Definition drm_mode_probed_add (mode : drm_display_mode)
    : state drm_connector unit :=
    c <- get ;;
    put {| display_info := display_info c
         ; probed_modes := probed_modes c ++ [mode] |}.

(** The two assignments to [connector->display_info.width_mm] and
    [.height_mm] in [ili9806e_get_modes]. *)
Definition set_display_size (w h : Z) : state drm_connector unit :=
    c <- get ;;
    put {| display_info :=
             {| info_width_mm := w
              ; info_height_mm := h
              ; bus_formats := bus_formats (display_info c) |}
         ; probed_modes := probed_modes c |}.

Definition ili9806e_get_modes : state drm_connector Z :=
    let bus_format := ILI9806E_BUS_FORMAT in
    match drm_mode_duplicate nds040480800_v3_mode with
    | None => ret (- ENOMEM)
    | Some mode =>
        let mode := drm_mode_set_name mode in
        set_display_size (width_mm mode) (height_mm mode) ;;
        drm_display_info_set_bus_formats [bus_format] ;;
        drm_mode_probed_add mode ;;
        ret 1
    end.
End GetModes.

End Ili9806e.

(** ** The ST7789V driver (src/unnamed/part_000) *)

Module St7789v.
Import Kernel.

Definition ST7789V_MY : Z := BIT 7.
Definition ST7789V_MX : Z := BIT 6.
Definition ST7789V_MV : Z := BIT 5.
Definition ST7789V_RGB : Z := BIT 3.

(** [struct mipi_dbi_dev] as far as the driver reads it. *)
Record mipi_dbi_dev : Set := { rotation : Z }.

(** The [switch (dbidev->rotation)] of [st7789v_pipe_enable], which leaves
    its result in the [uint8_t addr_mode]; the line that would or
    [ST7789V_RGB] into it is commented out in the source. *)
Definition addr_mode (rotation : Z) : Z :=
  if rotation =? 90 then u8 (Z.lor ST7789V_MX ST7789V_MV)
  else if rotation =? 180 then u8 (Z.lor ST7789V_MX ST7789V_MY)
  else if rotation =? 270 then u8 (Z.lor ST7789V_MY ST7789V_MV)
  else u8 0.

Section Driver.
Variable e : Env.

Local Abbreviation mipi_dbi_command := (Kernel.mipi_dbi_command e).
Local Abbreviation kcall := (Kernel.kcall e).
Local Abbreviation kout := (Kernel.kout e).
Local Abbreviation devm_gpiod_get_optional :=
    (Kernel.devm_gpiod_get_optional e).

  (** [drm_dev_enter(dev, &idx)]: writes [idx], returns a [bool]. *)
Definition drm_dev_enter : state klog (bool * Z) :=
    idx <- kout ;;
    r <- kcall (Drm_dev_enter idx) ;;
    ret (negb (r =? 0), idx).

  (** [device_property_read_u32(dev, propname, &val)]: writes [val] only
      when it succeeds; returns the value [val] holds afterwards along
      with the status. *)
Definition device_property_read_u32 (propname : string) (val : Z)
    : state klog (Z * Z) :=
    out <- kout ;;
    r <- kcall (Device_property_read_u32 propname (out mod 2 ^ 32)) ;;
    ret (r, if r =? 0 then out mod 2 ^ 32 else val).

Definition st7789v_pipe_enable (dbidev : mipi_dbi_dev) : state klog unit :=
    '(entered, idx) <- drm_dev_enter ;;
    if negb entered then ret tt else
    kvoid DRM_DEBUG_KMS ;;
    r <- kcall Mipi_dbi_poweron_reset ;;
    (if negb (r =? 0) then kvoid (Drm_dev_exit idx) else ret tt) ;;
    (* init seq begin *)
    mipi_dbi_command MIPI_DCS_SET_PIXEL_FORMAT [0x05] ;;
    mipi_dbi_command 0xB2 [0x0C; 0x0C; 0x00; 0x33; 0x33] ;;
    mipi_dbi_command 0xB7 [0x35] ;;
    mipi_dbi_command 0xBB [0x19] ;;
    mipi_dbi_command 0xC0 [0x2C] ;;
    mipi_dbi_command 0xC2 [0x01] ;;
    mipi_dbi_command 0xC3 [0x12] ;;
    mipi_dbi_command 0xC4 [0x20] ;;
    mipi_dbi_command 0xC6 [0x0F] ;;
    mipi_dbi_command 0xD0 [0xA4; 0xA1] ;;
    mipi_dbi_command 0xE0 [0xD0; 0x04; 0x0D; 0x11; 0x13; 0x2B; 0x3F;
                           0x54; 0x4C; 0x18; 0x0D; 0x0B; 0x1F; 0x23] ;;
    mipi_dbi_command 0xE1 [0xD0; 0x04; 0x0C; 0x11; 0x13; 0x2C; 0x3F;
                           0x44; 0x51; 0x2F; 0x1F; 0x1F; 0x20; 0x23] ;;
    mipi_dbi_command MIPI_DCS_ENTER_NORMAL_MODE [] ;;
    mipi_dbi_command MIPI_DCS_SET_ADDRESS_MODE [addr_mode (rotation dbidev)] ;;
    mipi_dbi_command MIPI_DCS_EXIT_SLEEP_MODE [] ;;
    mipi_dbi_command MIPI_DCS_SET_DISPLAY_ON [] ;;
    msleep 20 ;;
    (* init seq end *)
    kvoid Mipi_dbi_enable_flush.

Definition st7789v_probe : state klog Z :=
    let rotation := 0 in
    dbidev <- kcall Devm_drm_dev_alloc ;;
    if IS_ERR dbidev then ret (PTR_ERR dbidev) else
    reset <- devm_gpiod_get_optional "reset" GPIOD_OUT_HIGH ;;
    if IS_ERR reset then
      kvoid (DRM_DEV_ERROR ("Failed to get gpio 'reset'" ++ LF)%string) ;;
      ret (PTR_ERR reset)
    else
    dc <- devm_gpiod_get_optional "dc" GPIOD_OUT_LOW ;;
    if IS_ERR dc then
      kvoid (DRM_DEV_ERROR ("Failed to get gpio 'dc'" ++ LF)%string) ;;
      ret (PTR_ERR dc)
    else
    backlight <- kcall Devm_of_find_backlight ;;
    (* if (IS_ERR(dbidev->backlight)) return PTR_ERR(dbidev->backlight);
       is commented out in the source *)
    '(_, rotation) <- device_property_read_u32 "rotation" rotation ;;
    r <- kcall (Mipi_dbi_spi_init dc) ;;
    if negb (r =? 0) then ret r else
    r <- kcall (Mipi_dbi_dev_init rotation) ;;
    if negb (r =? 0) then ret r else
    kvoid Drm_mode_config_reset ;;
    r <- kcall Drm_dev_register ;;
    if negb (r =? 0) then ret r else
    kvoid Spi_set_drvdata ;;
    kvoid Drm_fbdev_generic_setup ;;
    kvoid (Dev_info "St7789 driver added") ;;
    ret 0.
End Driver.

(** The bus commands [st7789v_pipe_enable] issues between its comments
    [init seq begin] and [init seq end], in order. *)
Definition st7789v_init_sequence (rotation : Z) : list call :=
  [ Mipi_dbi_command MIPI_DCS_SET_PIXEL_FORMAT [0x05]
  ; Mipi_dbi_command 0xB2 [0x0C; 0x0C; 0x00; 0x33; 0x33]
  ; Mipi_dbi_command 0xB7 [0x35]
  ; Mipi_dbi_command 0xBB [0x19]
  ; Mipi_dbi_command 0xC0 [0x2C]
  ; Mipi_dbi_command 0xC2 [0x01]
  ; Mipi_dbi_command 0xC3 [0x12]
  ; Mipi_dbi_command 0xC4 [0x20]
  ; Mipi_dbi_command 0xC6 [0x0F]
  ; Mipi_dbi_command 0xD0 [0xA4; 0xA1]
  ; Mipi_dbi_command 0xE0 [0xD0; 0x04; 0x0D; 0x11; 0x13; 0x2B; 0x3F;
                           0x54; 0x4C; 0x18; 0x0D; 0x0B; 0x1F; 0x23]
  ; Mipi_dbi_command 0xE1 [0xD0; 0x04; 0x0C; 0x11; 0x13; 0x2C; 0x3F;
                           0x44; 0x51; 0x2F; 0x1F; 0x1F; 0x20; 0x23]
  ; Mipi_dbi_command MIPI_DCS_ENTER_NORMAL_MODE []
  ; Mipi_dbi_command MIPI_DCS_SET_ADDRESS_MODE [addr_mode rotation]
  ; Mipi_dbi_command MIPI_DCS_EXIT_SLEEP_MODE []
  ; Mipi_dbi_command MIPI_DCS_SET_DISPLAY_ON [] ].

(** What a run of [st7789v_probe] can append to the log, and return: one
    case per [return] of the function. *)
Definition st7789v_probe_acquired (dbidev rst dc bl out pr : Z) : klog :=
  [ (Devm_drm_dev_alloc, dbidev)
  ; (Devm_gpiod_get_optional "reset" GPIOD_OUT_HIGH, rst)
  ; (Devm_gpiod_get_optional "dc" GPIOD_OUT_LOW, dc)
  ; (Devm_of_find_backlight, bl)
  ; (Device_property_read_u32 "rotation" out, pr) ].

Inductive st7789v_probe_outcome : Z -> klog -> Prop :=
| st_no_device dbidev :
    IS_ERR dbidev = true ->
    st7789v_probe_outcome dbidev [ (Devm_drm_dev_alloc, dbidev) ]
| st_no_reset dbidev rst :
    IS_ERR dbidev = false -> IS_ERR rst = true ->
    st7789v_probe_outcome rst
      [ (Devm_drm_dev_alloc, dbidev)
      ; (Devm_gpiod_get_optional "reset" GPIOD_OUT_HIGH, rst)
      ; (DRM_DEV_ERROR ("Failed to get gpio 'reset'" ++ LF)%string, 0) ]
| st_no_dc dbidev rst dc :
    IS_ERR dbidev = false -> IS_ERR rst = false -> IS_ERR dc = true ->
    st7789v_probe_outcome dc
      [ (Devm_drm_dev_alloc, dbidev)
      ; (Devm_gpiod_get_optional "reset" GPIOD_OUT_HIGH, rst)
      ; (Devm_gpiod_get_optional "dc" GPIOD_OUT_LOW, dc)
      ; (DRM_DEV_ERROR ("Failed to get gpio 'dc'" ++ LF)%string, 0) ]
| st_no_bus dbidev rst dc bl out pr err :
    IS_ERR dbidev = false -> IS_ERR rst = false -> IS_ERR dc = false ->
    err <> 0 ->
    st7789v_probe_outcome err
      (st7789v_probe_acquired dbidev rst dc bl out pr ++
       [ (Mipi_dbi_spi_init dc, err) ])
| st_no_init dbidev rst dc bl out pr err :
    IS_ERR dbidev = false -> IS_ERR rst = false -> IS_ERR dc = false ->
    err <> 0 ->
    st7789v_probe_outcome err
      (st7789v_probe_acquired dbidev rst dc bl out pr ++
       [ (Mipi_dbi_spi_init dc, 0)
       ; (Mipi_dbi_dev_init (if pr =? 0 then out else 0), err) ])
| st_not_registered dbidev rst dc bl out pr err :
    IS_ERR dbidev = false -> IS_ERR rst = false -> IS_ERR dc = false ->
    err <> 0 ->
    st7789v_probe_outcome err
      (st7789v_probe_acquired dbidev rst dc bl out pr ++
       [ (Mipi_dbi_spi_init dc, 0)
       ; (Mipi_dbi_dev_init (if pr =? 0 then out else 0), 0)
       ; (Drm_mode_config_reset, 0)
       ; (Drm_dev_register, err) ])
| st_registered dbidev rst dc bl out pr :
    IS_ERR dbidev = false -> IS_ERR rst = false -> IS_ERR dc = false ->
    st7789v_probe_outcome 0
      (st7789v_probe_acquired dbidev rst dc bl out pr ++
       [ (Mipi_dbi_spi_init dc, 0)
       ; (Mipi_dbi_dev_init (if pr =? 0 then out else 0), 0)
       ; (Drm_mode_config_reset, 0)
       ; (Drm_dev_register, 0)
       ; (Spi_set_drvdata, 0)
       ; (Drm_fbdev_generic_setup, 0)
       ; (Dev_info "St7789 driver added", 0) ]).

End St7789v.

(** ** Both drivers *)

Module Drivers.
Import Kernel.

Inductive driver : Set := ILI9806E | ST7789V.

(** The [.probe] member of [ili9806e_driver] and of [st7789v_spi_driver]. *)
Definition probe (d : driver) (e : Env) : state klog Z :=
  match d with
  | ILI9806E => Ili9806e.ili9806e_probe e
  | ST7789V => St7789v.st7789v_probe e
  end.


(** A call went well: the opposite of [failed], except that an [int]
    status is good only when it is 0, which is what the drivers test. *)
Definition succeeded (c : call) (r : Z) : bool :=
  match c with
  | Devm_kzalloc => negb (r =? NULL)
  | Devm_gpiod_get _ _ | Devm_gpiod_get_optional _ _
  | Devm_drm_dev_alloc | Devm_of_find_backlight => negb (IS_ERR r)
  | Mipi_dbi_command _ _ | Drm_panel_of_backlight | Mipi_dbi_spi_init _
  | Mipi_dbi_poweron_reset | Device_property_read_u32 _ _
  | Mipi_dbi_dev_init _ | Drm_dev_register => r =? 0
  | _ => true
  end.



End Drivers.

(** ** Sequences of power-state callbacks *)

Module Power.
Import Kernel Ili9806e.

(** The page left selected by a list of bus commands, [cur] being the one
    selected before. *)
Definition selected_page (cur : option Z) (l : list (Z * list Z))
  : option Z :=
  fold_left (fun cur c => match page_switch c with
                          | Some p => Some p
                          | None => cur
                          end) l cur.

(** The callbacks of [ili9806e_drm_funcs] and [ili9806e_pm_ops] that the
    panel and PM cores may invoke on a prepared panel, in any order. *)
Inductive power_op : Set := Unprepare | Suspend | Resume.

Definition run_power_op (e : Env) (ctx : ili9806e) (op : power_op)
  : state klog Z :=
  match op with
  | Unprepare => ili9806e_unprepare e ctx
  | Suspend => ili9806e_suspend e ctx
  | Resume => ili9806e_resume e ctx
  end.

Fixpoint run_power_ops (e : Env) (ctx : ili9806e) (ops : list power_op)
  : state klog unit :=
  match ops with
  | [] => ret tt
  | op :: ops' => run_power_op e ctx op ;; run_power_ops e ctx ops'
  end.

(** The calls by which a probe reports an error. *)
Definition reports (c : call) : bool :=
  match c with
  | Dev_err_probe _ _ | DRM_DEV_ERROR _ => true
  | _ => false
  end.

(** Two more environments: a device that has been unplugged, so that
    [drm_dev_enter] returns false, and a device without a [rotation]
    property, on which reading it fails with [-EINVAL]. *)
Definition env_gone : Env := env_of (fun _ => 0).

Definition env_no_rotation : Env :=
  mkEnv (fun _ c => match c with
                    | Device_property_read_u32 _ _ => -22
                    | _ => answer_ok c
                    end) (fun _ => 270).

End Power.

(** * Properties *)

Import Kernel.

(** ** Running a computation: the rules of [issues] *)

Section Issues.
Variable e : Env.

Lemma run_bind {A B : Type} (m : state klog A) (f : A -> state klog B) h :
    runState (bind m f) h =
    runState (f (fst (runState m h))) (snd (runState m h)).
  Proof. simpl. destruct (runState m h); reflexivity. Qed.

Lemma issues_ret {A : Type} (a : A) (P : A -> Prop) :
    P a -> issues (ret a) P [].
  Proof.
    intros Pa h. exists a, []. rewrite app_nil_r. auto.
  Qed.

Lemma issues_bind {A B : Type} (m : state klog A) (f : A -> state klog B)
    (P : A -> Prop) (Q : B -> Prop) l1 l2 :
    issues m P l1 ->
    (forall a, P a -> issues (f a) Q l2) ->
    issues (bind m f) Q (l1 ++ l2).
  Proof.
    intros Hm Hf h.
    destruct (Hm h) as (a & n1 & Hrun & Pa & Hc1).
    destruct (Hf a Pa (h ++ n1)) as (b & n2 & Hrun2 & Qb & Hc2).
    exists b, (n1 ++ n2).
    rewrite run_bind, Hrun. simpl. rewrite Hrun2, app_assoc.
    unfold calls in *. rewrite map_app, Hc1, Hc2. auto.
  Qed.

Lemma issues_kcall c : issues (kcall e c) (fun _ => True) [c].
  Proof. intros h. eexists _, [_]. simpl. eauto. Qed.

Lemma issues_kvoid c : issues (kvoid c) (fun _ => True) [c].
  Proof. intros h. eexists _, [_]. simpl. eauto. Qed.

Lemma issues_eq {A : Type} (m : state klog A) (P : A -> Prop) l l' :
    issues m P l -> l = l' -> issues m P l'.
  Proof. intros Hm <-. exact Hm. Qed.
End Issues.

(** Symbolic execution of a straight line of calls whose results are
    dropped. *)
Ltac issue_step e :=
  first
    [ eapply issues_bind;
      [ first [ apply (issues_kcall e) | apply issues_kvoid ] | intros ? _ ]
    | apply issues_ret; reflexivity
    | apply (issues_kcall e)
    | apply issues_kvoid ].

Ltac straight_line e :=
  eapply issues_eq; [ repeat issue_step e | reflexivity ].

Import Ili9806e.

Lemma ili9806e_unprepare_issues e ctx :
  issues (ili9806e_unprepare e ctx) (eq 0)
    [ Mipi_dbi_command MIPI_DCS_SET_DISPLAY_OFF [0]
    ; Mipi_dbi_command MIPI_DCS_ENTER_SLEEP_MODE [0] ].
Proof.
  unfold ili9806e_unprepare, mipi_dbi_command. straight_line e.
Qed.

Lemma ili9806e_suspend_issues e ctx :
  issues (ili9806e_suspend e ctx) (eq 0)
    [ Mipi_dbi_command MIPI_DCS_SET_DISPLAY_OFF [0]
    ; Mipi_dbi_command MIPI_DCS_ENTER_SLEEP_MODE [0] ].
Proof.
  unfold ili9806e_suspend, mipi_dbi_command. straight_line e.
Qed.

Lemma ili9806e_resume_issues e ctx :
  issues (ili9806e_resume e ctx) (eq 0)
    [ Mipi_dbi_command MIPI_DCS_EXIT_SLEEP_MODE [0]
    ; Msleep 120
    ; Mipi_dbi_command MIPI_DCS_SET_DISPLAY_ON [0] ].
Proof.
  unfold ili9806e_resume, mipi_dbi_command, msleep. straight_line e.
Qed.

Lemma ili9806e_switch_page_issues e ctx page :
  issues (ili9806e_switch_page e ctx page) (fun _ => True)
    [ Mipi_dbi_command ILI9806E_Px_ENEXTC [0xff; 0x98; 0x06; 0x04; u8 page] ].
Proof.
  unfold ili9806e_switch_page, mipi_dbi_command. straight_line e.
Qed.

(** The calls of [ili9806e_prepare] do not depend on what the kernel
    answers, nor on the history: they are those of the run in which every
    call succeeds. *)
Lemma ili9806e_prepare_issues e ctx :
  issues (ili9806e_prepare e ctx) (eq 0)
    (ili9806e_prepare_calls (reset (dbi ctx))).
Proof.
  unfold ili9806e_prepare, ili9806e_switch_page, mipi_dbi_command,
    gpiod_set_value, usleep_range, msleep.
  eapply issues_eq; [ repeat issue_step e | vm_compute; reflexivity ].
Qed.

Lemma issues_returns {A : Type} (m : state klog A) (a : A) l h :
  issues m (eq a) l -> evalState m h = a.
Proof.
  intros Hm. destruct (Hm h) as (a' & n & Hrun & <- & _).
  unfold evalState. rewrite Hrun. reflexivity.
Qed.

Lemma issues_run {A : Type} (m : state klog A) (a : A) l h :
  issues m (eq a) l ->
  exists new, runState m h = (a, h ++ new) /\ calls new = l.
Proof.
  intros Hm. destruct (Hm h) as (a' & n & Hrun & <- & Hc). eauto.
Qed.

(** ** ILI9806E: power-state operations *)

(** C1, as amended: [ili9806e_prepare], [ili9806e_unprepare],
    [ili9806e_suspend] and [ili9806e_resume] return 0 on every invocation,
    whatever the bus commands they issue return; the status of a failed bus
    write is dropped, not propagated. *)
Theorem ili9806e_power_ops_return_zero (e : Env) (ctx : ili9806e) (h : klog) :
  evalState (ili9806e_prepare e ctx) h = 0 /\
  evalState (ili9806e_unprepare e ctx) h = 0 /\
  evalState (ili9806e_suspend e ctx) h = 0 /\
  evalState (ili9806e_resume e ctx) h = 0.
Proof.
  split; [| split; [| split]]; eapply issues_returns.
  - apply ili9806e_prepare_issues.
  - apply ili9806e_unprepare_issues.
  - apply ili9806e_suspend_issues.
  - apply ili9806e_resume_issues.
Qed.

(** C1, as stated, fails: on a bus that answers every command with [-EIO]
    each of the four operations logs failed bus commands and still
    returns 0. *)
Lemma ili9806e_bus_failure_not_propagated :
  let ctx := panel_with_reset 0x2000 in
  let dropped (op : Env -> ili9806e -> state klog Z) :=
    failed_bus_commands (execState (op env_bus_eio ctx) []) <> [] /\
    evalState (op env_bus_eio ctx) [] = 0 in
  dropped ili9806e_prepare /\ dropped ili9806e_unprepare /\
  dropped ili9806e_suspend /\ dropped ili9806e_resume.
Proof.
  repeat split; try (vm_compute; discriminate); vm_compute; reflexivity.
Qed.


(** C6: power-off and suspend each issue exactly two bus commands,
    set-display-off and then enter-sleep-mode, and nothing else. *)
Theorem ili9806e_power_off_sequence (e : Env) (ctx : ili9806e) (h : klog) :
  let off :=
    [ Mipi_dbi_command MIPI_DCS_SET_DISPLAY_OFF [0]
    ; Mipi_dbi_command MIPI_DCS_ENTER_SLEEP_MODE [0] ] in
  (exists new, runState (ili9806e_unprepare e ctx) h = (0, h ++ new) /\
               calls new = off) /\
  (exists new, runState (ili9806e_suspend e ctx) h = (0, h ++ new) /\
               calls new = off).
Proof.
  split; eapply issues_run.
  - apply ili9806e_unprepare_issues.
  - apply ili9806e_suspend_issues.
Qed.

(** C10: a page switch is the write of the five bytes 0xff 0x98 0x06 0x04
    and the page number to [ILI9806E_Px_ENEXTC]; [ili9806e_prepare]
    switches to the pages 1, 6, 7 and 0 in that order, issues every
    one-byte register write with page 1, 6 or 7 selected, and issues
    tear-on, exit-sleep and display-on, and nothing else, with page 0
    selected. *)
Theorem ili9806e_prepare_pages :
  (forall (e : Env) (ctx : ili9806e) (page : Z) (h : klog), exists r,
     runState (ili9806e_switch_page e ctx page) h =
     (r, h ++ [(Mipi_dbi_command ILI9806E_Px_ENEXTC
                  [0xff; 0x98; 0x06; 0x04; u8 page], r)])) /\
  exists w1 w6 w7 : list (Z * list Z),
    (forall w, In w (w1 ++ w6 ++ w7) ->
       exists reg val, w = (reg, [val]) /\ reg <> ILI9806E_Px_ENEXTC) /\
    w1 <> [] /\ w6 <> [] /\ w7 <> [] /\
    forall (e : Env) (ctx : ili9806e) (h : klog), exists new,
      execState (ili9806e_prepare e ctx) h = h ++ new /\
      page_switches (bus_commands (calls new)) = [1; 6; 7; 0] /\
      paged None (bus_commands (calls new)) =
        map (pair (Some 1)) w1 ++ map (pair (Some 6)) w6
        ++ map (pair (Some 7)) w7
        ++ map (pair (Some 0))
             [ (MIPI_DCS_SET_TEAR_ON, [])
             ; (MIPI_DCS_EXIT_SLEEP_MODE, [])
             ; (MIPI_DCS_SET_DISPLAY_ON, []) ].
Proof.
  split.
  - intros e ctx page h. eexists. reflexivity.
  - pose (cmds := bus_commands (ili9806e_prepare_calls 0)).
    exists (in_page 1 cmds), (in_page 6 cmds), (in_page 7 cmds).
    split.
    { assert (Hall : Forall (fun w => exists reg val,
                w = (reg, [val]) /\ reg <> ILI9806E_Px_ENEXTC)
              (in_page 1 cmds ++ in_page 6 cmds ++ in_page 7 cmds)).
      { vm_compute.
        repeat (constructor; [ do 2 eexists; split;
                               [ reflexivity | discriminate ] | ]).
        constructor. }
      intros w Hw. exact (proj1 (Forall_forall _ _) Hall w Hw). }
    repeat (split; [ vm_compute; discriminate | ]).
    intros e ctx h.
    destruct (issues_run _ _ _ h (ili9806e_prepare_issues e ctx))
      as (new & Hrun & Hcalls).
    exists new. unfold execState. rewrite Hrun, Hcalls.
    generalize (reset (dbi ctx)). intros rst.
    repeat split; vm_compute; reflexivity.
Qed.

(** ** Probe: every run ends in one of the listed outcomes *)

Import St7789v Drivers.

Lemma run_start {A : Type} (m : state klog A) (h : klog) :
  runState m h = runState m (h ++ []).
Proof. now rewrite app_nil_r. Qed.

Lemma run_kcall e c h acc :
  runState (kcall e c) (h ++ acc) =
  (ret_val e (h ++ acc) c, h ++ (acc ++ [(c, ret_val e (h ++ acc) c)])).
Proof. rewrite app_assoc. reflexivity. Qed.

Lemma run_kvoid c h acc :
  runState (kvoid c) (h ++ acc) = (tt, h ++ (acc ++ [(c, 0)])).
Proof. rewrite app_assoc. reflexivity. Qed.

Lemma run_kout e h : runState (kout e) h = (out_val e h, h).
Proof. reflexivity. Qed.

Lemma run_ret {A : Type} (a : A) (h : klog) : runState (ret a) h = (a, h).
Proof. reflexivity. Qed.

(** One call forward, the log kept as the history followed by the calls
    made since; the answer of the kernel becomes a variable. *)
Ltac run_step :=
  first [ rewrite run_bind | rewrite run_ret
        | rewrite run_kvoid | rewrite run_kcall ];
  rewrite ?run_kcall, ?run_kvoid, ?run_kout; cbn [fst snd app];
  try match goal with
      | |- context [out_val ?e ?h] =>
          let o := fresh "out" in generalize (out_val e h); intro o
      end;
  try match goal with
      | |- context [ret_val ?e ?h ?c] =>
          let r := fresh "r" in generalize (ret_val e h c); intro r
      end.

(** At a [return]: read the appended calls off the final log. *)
Ltac run_done :=
  let Hrun := fresh "Hrun" in
  let Hlog := fresh "Hlog" in
  intros Hrun; injection Hrun as <- Hlog;
  repeat rewrite <- app_assoc in Hlog; cbn [app] in Hlog;
  apply app_inv_head in Hlog; subst.

Lemma negb_eqb_false (r : Z) : negb (r =? 0) = false -> r = 0.
Proof. destruct (Z.eqb_spec r 0); [auto | discriminate]. Qed.

Lemma negb_eqb_true (r : Z) : negb (r =? 0) = true -> r <> 0.
Proof. destruct (Z.eqb_spec r 0); [discriminate | auto]. Qed.

Ltac run_if H :=
  match goal with
  | |- context [runState (if ?b then _ else _) _] => destruct b eqn:H
  end.

Ltac run_end :=
  repeat run_step; repeat rewrite <- app_assoc; eexists; reflexivity.

(** A probe always returns, and only ever appends to the log: the shape
    [h ++ new] the statements below ask of a run is the shape of every
    run. *)
Lemma probe_extends_log d e h :
  exists new, execState (probe d e) h = h ++ new.
Proof.
  unfold execState. rewrite run_start.
  destruct d; cbn [probe].
  - unfold ili9806e_probe, devm_gpiod_get, dev_err_probe.
    run_step. run_if H0; [run_end |].
    do 3 run_step. run_if H1; [run_end |].
    run_step. run_if H2; [run_end |].
    run_step. run_if H3; run_end.
  - unfold st7789v_probe, devm_gpiod_get_optional, device_property_read_u32.
    run_step. run_if H0; [run_end |].
    run_step. run_if H1; [run_end |].
    run_step. run_if H2; [run_end |].
    do 6 run_step. run_if H3; [run_end |].
    run_step. run_if H4; [run_end |].
    do 2 run_step. run_if H5; run_end.
Qed.

Lemma ili9806e_probe_outcomes e h r new :
  runState (ili9806e_probe e) h = (r, h ++ new) ->
  ili9806e_probe_outcome r new.
Proof.
  rewrite run_start.
  unfold ili9806e_probe, devm_gpiod_get, dev_err_probe.
  run_step. destruct (Z.eqb_spec r0 NULL) as [-> | Hctx].
  { run_step. run_done. constructor. }
  do 3 run_step. run_if Hrst.
  { do 2 run_step. run_done. apply ili_no_reset; assumption. }
  run_step. run_if Hbl.
  { do 2 run_step. run_done.
    apply ili_no_backlight; auto using negb_eqb_true. }
  apply negb_eqb_false in Hbl; subst.
  run_step. run_if Hspi.
  { do 2 run_step. run_done. apply ili_no_bus; auto using negb_eqb_true. }
  apply negb_eqb_false in Hspi; subst.
  do 2 run_step. run_done. apply ili_added; assumption.
Qed.

Lemma st7789v_probe_outcomes e h r new :
  runState (st7789v_probe e) h = (r, h ++ new) ->
  st7789v_probe_outcome r new.
Proof.
  rewrite run_start.
  unfold st7789v_probe, devm_gpiod_get_optional, device_property_read_u32.
  run_step. run_if Hdev.
  { run_step. run_done. apply st_no_device; assumption. }
  run_step. run_if Hrst.
  { do 2 run_step. run_done. apply st_no_reset; assumption. }
  run_step. run_if Hdc.
  { do 2 run_step. run_done. apply st_no_dc; assumption. }
  do 6 run_step. run_if Hspi.
  { run_step. run_done.
    eapply (st_no_bus _ _ _ _ (out mod 2 ^ 32)); auto using negb_eqb_true. }
  apply negb_eqb_false in Hspi; subst.
  run_step. run_if Hinit.
  { run_step. run_done.
    eapply (st_no_init _ _ _ _ (out mod 2 ^ 32)); auto using negb_eqb_true. }
  apply negb_eqb_false in Hinit; subst.
  do 2 run_step. run_if Hreg.
  { run_step. run_done.
    eapply (st_not_registered _ _ _ _ (out mod 2 ^ 32));
      auto using negb_eqb_true. }
  apply negb_eqb_false in Hreg; subst.
  do 4 run_step. run_done.
  eapply (st_registered _ _ _ _ (out mod 2 ^ 32)); assumption.
Qed.


(** The facts a hypothesis on all entries of a log gives on each entry of
    a log that is written out. *)
Lemma entries_forall (P : call -> Z -> Prop) (l : klog) :
  (forall c a, In (c, a) l -> P c a) ->
  Forall (fun cr => P (fst cr) (snd cr)) l.
Proof.
  intros H. apply Forall_forall. intros [c a] Hin. exact (H c a Hin).
Qed.

Ltac each_entry H :=
  apply entries_forall in H;
  repeat match goal with
         | F : Forall _ (_ :: _) |- _ => inversion F; clear F; subst
         | F : Forall _ [] |- _ => clear F
         end;
  cbn [fst snd] in *.

(** The entries a membership in a written-out log can stand for. *)
Ltac in_cases H :=
  cbn [app In] in H;
  repeat (destruct H as [H | H]; [ injection H as <- <- | ]);
  try contradiction.

(** ** Probe: the claims *)

(** C2, as amended: the ST7789V probe treats its reset and data-command
    GPIO lines as optional: on a device that provides neither, it returns 0
    and registers the DRM device when every other call succeeds.  The
    ILI9806E probe requires its reset line (and has no data-command line):
    on such a device it returns [-ENOENT] and does not add the panel. *)
Theorem probe_without_gpio_line (d : driver) (e : Env) (h : klog)
  (r : Z) (new : klog) :
  runState (probe d e) h = (r, h ++ new) ->
  no_gpio_line new ->
  (forall c a, In (c, a) new -> absent_line_answer c = None ->
               succeeded c a = true) ->
  match d with
  | ST7789V => r = 0 /\ In Drm_dev_register (calls new)
  | ILI9806E => r = - ENOENT /\ ~ In Drm_panel_add (calls new)
  end.
Proof.
  intros Hrun Hgpio Hok. unfold no_gpio_line in Hgpio.
  destruct d; cbn [probe] in Hrun.
  - apply ili9806e_probe_outcomes in Hrun.
    inversion Hrun; subst; unfold ili9806e_probe_setup in *;
      cbn [app] in *.
    + each_entry Hok. cbn in *. intuition discriminate.
    + specialize (Hgpio _ _ _ (or_intror (or_intror (or_intror
                    (or_introl eq_refl)))) eq_refl).
      subst. split; [reflexivity |].
      cbn. intuition discriminate.
    + specialize (Hgpio _ _ _ (or_intror (or_intror (or_intror
                    (or_introl eq_refl)))) eq_refl).
      subst. discriminate.
    + specialize (Hgpio _ _ _ (or_intror (or_intror (or_intror
                    (or_introl eq_refl)))) eq_refl).
      subst. discriminate.
    + specialize (Hgpio _ _ _ (or_intror (or_intror (or_intror
                    (or_introl eq_refl)))) eq_refl).
      subst. discriminate.
  - apply st7789v_probe_outcomes in Hrun.
    inversion Hrun; subst; unfold st7789v_probe_acquired in *;
      cbn [app] in *.
    + each_entry Hok. cbn in *. rewrite H in *. intuition discriminate.
    + specialize (Hgpio _ _ _ (or_intror (or_introl eq_refl)) eq_refl).
      subst. discriminate.
    + specialize (Hgpio _ _ _ (or_intror (or_intror (or_introl eq_refl)))
                    eq_refl).
      subst. discriminate.
    + each_entry Hok. cbn in *.
      match goal with
      | E : ?P -> (r =? 0) = true |- _ =>
          specialize (E eq_refl); apply Z.eqb_eq in E; contradiction
      end.
    + each_entry Hok. cbn in *.
      match goal with
      | E : ?P -> (r =? 0) = true |- _ =>
          specialize (E eq_refl); apply Z.eqb_eq in E; contradiction
      end.
    + each_entry Hok. cbn in *.
      match goal with
      | E : ?P -> (r =? 0) = true |- _ =>
          specialize (E eq_refl); apply Z.eqb_eq in E; contradiction
      end.
    + split; [reflexivity |]. cbn. tauto.
Qed.

Ltac concrete_entries Hin :=
  vm_compute in Hin;
  repeat (destruct Hin as [Hin | Hin];
          [ injection Hin as <- <-; vm_compute; try reflexivity | ]);
  try contradiction.

(** Both probes on a device without GPIO lines on which everything else
    succeeds. *)
Lemma probe_without_gpio_line_witness :
  (evalState (probe ST7789V env_no_gpio) [] = 0 /\
   In Drm_dev_register (calls (execState (probe ST7789V env_no_gpio) []))) /\
  (evalState (probe ILI9806E env_no_gpio) [] = - ENOENT /\
   ~ In Drm_panel_add (calls (execState (probe ILI9806E env_no_gpio) []))).
Proof.
  split.
  - apply (probe_without_gpio_line ST7789V env_no_gpio [] _ _ eq_refl).
    + intros c r v Hin. concrete_entries Hin; intros E; now inversion E.
    + intros c a Hin. concrete_entries Hin; intros E; discriminate E.
  - apply (probe_without_gpio_line ILI9806E env_no_gpio [] _ _ eq_refl).
    + intros c r v Hin. concrete_entries Hin; intros E; now inversion E.
    + intros c a Hin. concrete_entries Hin; intros E; discriminate E.
Defined.

(** C2, as stated, fails for the ILI9806E probe: on a device without GPIO
    lines, where every other call succeeds, the lookup of the reset line
    answers [ERR_PTR(-ENOENT)] and the probe returns that error. *)
Lemma ili9806e_probe_needs_reset_line :
  runState (ili9806e_probe env_no_gpio) [] =
  (- ENOENT,
   [ (Devm_kzalloc, 0x1000); (Drm_panel_init, 0); (Spi_set_drvdata, 0)
   ; (Devm_gpiod_get "reset" GPIOD_OUT_LOW, - ENOENT)
   ; (Dev_err_probe (- ENOENT) ("cannot get reset-gpios" ++ LF)%string, 0)
   ]) /\
  absent_line_answer (Devm_gpiod_get "reset" GPIOD_OUT_LOW) = Some (- ENOENT) /\
  - ENOENT < 0.
Proof. repeat split. Qed.









(** ** ST7789V: enabling the pipe *)

Lemma u8_addr_mode (rot : Z) : u8 (addr_mode rot) = addr_mode rot.
Proof.
  unfold addr_mode.
  destruct (rot =? 90); [reflexivity |].
  destruct (rot =? 180); [reflexivity |].
  destruct (rot =? 270); reflexivity.
Qed.

(** Either the device is gone and nothing happens, or the whole sequence
    runs, with a [drm_dev_exit] slipped in when the reset failed. *)
Lemma st7789v_pipe_enable_runs e dbidev h u new :
  runState (st7789v_pipe_enable e dbidev) h = (u, h ++ new) ->
  (exists idx, new = [(Drm_dev_enter idx, 0)]) \/
  (exists idx entered rst tail,
     entered <> 0 /\
     new = (Drm_dev_enter idx, entered) :: (DRM_DEBUG_KMS, 0)
           :: (Mipi_dbi_poweron_reset, rst)
           :: (if rst =? 0 then [] else [(Drm_dev_exit idx, 0)]) ++ tail /\
     calls tail = st7789v_init_sequence (rotation dbidev)
                  ++ [Msleep 20; Mipi_dbi_enable_flush]).
Proof.
  rewrite run_start.
  unfold st7789v_pipe_enable, drm_dev_enter, mipi_dbi_command, msleep.
  do 4 run_step.
  destruct (r =? 0) eqn:Hent; cbn [negb].
  { apply Z.eqb_eq in Hent; subst. run_step. run_done. left. eauto. }
  apply Z.eqb_neq in Hent.
  do 2 run_step. rewrite run_bind.
  destruct (r0 =? 0) eqn:Hrst; cbn [negb];
    rewrite ?run_kvoid, ?run_ret; cbn [fst snd app];
    do 17 run_step; run_done; right;
    exists out, r, r0; rewrite Hrst; cbn [app];
    (eexists; split; [ exact Hent | split; [ reflexivity |] ]);
    cbn [calls map fst]; rewrite u8_addr_mode;
    unfold st7789v_init_sequence;
    generalize (addr_mode (rotation dbidev)); intros byte;
    vm_compute; reflexivity.
Qed.

(** [st7789v_pipe_enable] always returns, and only appends to the log. *)
Lemma st7789v_pipe_enable_extends_log e dbidev h :
  exists new, runState (st7789v_pipe_enable e dbidev) h = (tt, h ++ new).
Proof.
  rewrite run_start.
  unfold st7789v_pipe_enable, drm_dev_enter, mipi_dbi_command, msleep.
  do 4 run_step.
  destruct (r =? 0); cbn [negb]; [ run_end |].
  do 2 run_step. rewrite run_bind.
  destruct (r0 =? 0); cbn [negb];
    rewrite ?run_kvoid, ?run_ret; cbn [fst snd app]; run_end.
Qed.

(** C8: when [mipi_dbi_poweron_reset] returns an error,
    [st7789v_pipe_enable] calls [drm_dev_exit] and carries on: it issues
    the whole initialisation sequence, sleeps and calls
    [mipi_dbi_enable_flush], as it does when the reset succeeds. *)
Theorem st7789v_pipe_enable_after_reset_error (e : Env)
  (dbidev : mipi_dbi_dev) (h new : klog) (rst : Z) :
  runState (st7789v_pipe_enable e dbidev) h = (tt, h ++ new) ->
  In (Mipi_dbi_poweron_reset, rst) new ->
  rst <> 0 ->
  exists idx,
    calls new =
      [ Drm_dev_enter idx; DRM_DEBUG_KMS; Mipi_dbi_poweron_reset
      ; Drm_dev_exit idx ]
      ++ st7789v_init_sequence (rotation dbidev)
      ++ [ Msleep 20; Mipi_dbi_enable_flush ].
Proof.
  intros Hrun Hin Hrst.
  apply st7789v_pipe_enable_runs in Hrun
    as [(idx & ->) | (idx & entered & rst' & tail & _ & -> & Htail)].
  - in_cases Hin.
  - assert (Hcalls : calls tail = st7789v_init_sequence (rotation dbidev)
                                  ++ [Msleep 20; Mipi_dbi_enable_flush])
      by exact Htail.
    assert (Hreset : rst' <> 0).
    { destruct (Z.eqb_spec rst' 0) as [-> | Hne]; [| exact Hne].
      cbn [app In] in Hin.
      destruct Hin as [Hin | [Hin | [Hin | Hin]]]; try discriminate Hin.
      - injection Hin as <-. exact Hrst.
      - cbn [Z.eqb app] in Hin.
        assert (Hc : In Mipi_dbi_poweron_reset (calls tail))
          by (apply (in_map fst) in Hin; exact Hin).
        rewrite Hcalls in Hc. cbn in Hc. intuition discriminate. }
    exists idx.
    destruct (Z.eqb_spec rst' 0) as [E | _]; [ contradiction |].
    cbn [calls map fst app]. unfold calls in Hcalls. rewrite Hcalls.
    reflexivity.
Qed.

(** A reset that fails with [-EIO], rotation 90. *)
Lemma st7789v_pipe_enable_after_reset_error_witness :
  exists idx,
    calls (execState
             (st7789v_pipe_enable env_reset_eio {| rotation := 90 |}) []) =
      [ Drm_dev_enter idx; DRM_DEBUG_KMS; Mipi_dbi_poweron_reset
      ; Drm_dev_exit idx ]
      ++ st7789v_init_sequence 90
      ++ [ Msleep 20; Mipi_dbi_enable_flush ].
Proof.
  apply (st7789v_pipe_enable_after_reset_error env_reset_eio
           {| rotation := 90 |} []
           (execState
              (st7789v_pipe_enable env_reset_eio {| rotation := 90 |}) [])
           (- EIO)).
  - vm_compute. reflexivity.
  - vm_compute. tauto.
  - discriminate.
Defined.

(** C9: the byte sent with [MIPI_DCS_SET_ADDRESS_MODE] is determined by
    the rotation alone: MX|MV = 0x60 for 90, MX|MY = 0xc0 for 180,
    MY|MV = 0xa0 for 270 and 0 for any other rotation; the RGB bit is
    never set. *)
Theorem st7789v_address_mode_byte (e : Env) (dbidev : mipi_dbi_dev)
  (h new : klog) (data : list Z) :
  runState (st7789v_pipe_enable e dbidev) h = (tt, h ++ new) ->
  In (Mipi_dbi_command MIPI_DCS_SET_ADDRESS_MODE data) (calls new) ->
  let rot := rotation dbidev in
  let byte := addr_mode rot in
  data = [byte] /\
  ((rot = 90 /\ byte = Z.lor ST7789V_MX ST7789V_MV /\ byte = 0x60) \/
   (rot = 180 /\ byte = Z.lor ST7789V_MX ST7789V_MY /\ byte = 0xc0) \/
   (rot = 270 /\ byte = Z.lor ST7789V_MY ST7789V_MV /\ byte = 0xa0) \/
   (rot <> 90 /\ rot <> 180 /\ rot <> 270 /\ byte = 0)) /\
  Z.land byte ST7789V_RGB = 0.
Proof.
  intros Hrun Hin rot byte.
  split; [| split].
  - apply st7789v_pipe_enable_runs in Hrun
      as [(idx & ->) | (idx & entered & rst & tail & _ & -> & Htail)].
    + cbn in Hin. intuition discriminate.
    + unfold calls in Hin, Htail. cbn [map fst] in Hin.
      rewrite map_app, Htail in Hin.
      destruct Hin as [Hin | [Hin | [Hin | Hin]]]; try discriminate Hin.
      apply in_app_or in Hin as [Hin | Hin].
      * destruct (rst =? 0); cbn in Hin; intuition discriminate.
      * unfold st7789v_init_sequence in Hin. cbn [app In] in Hin.
        repeat (destruct Hin as [Hin | Hin];
                [ first [ discriminate Hin
                        | injection Hin as <-; reflexivity ] |]).
        contradiction.
  - clear Hrun Hin. subst byte. unfold addr_mode.
    destruct (Z.eqb_spec rot 90) as [-> | H90]; [ left; now vm_compute |].
    destruct (Z.eqb_spec rot 180) as [-> | H180];
      [ right; left; now vm_compute |].
    destruct (Z.eqb_spec rot 270) as [-> | H270];
      [ right; right; left; now vm_compute |].
    right; right; right. auto.
  - clear Hrun Hin. subst byte. unfold addr_mode.
    destruct (rot =? 90); [reflexivity |].
    destruct (rot =? 180); [reflexivity |].
    destruct (rot =? 270); reflexivity.
Qed.

(** Rotation 270 on a kernel where every call succeeds. *)
Lemma st7789v_address_mode_byte_witness :
  [ Z.lor ST7789V_MY ST7789V_MV ] = [ addr_mode 270 ] /\
  addr_mode 270 = 0xa0 /\
  Z.land (addr_mode 270) ST7789V_RGB = 0.
Proof.
  destruct (st7789v_address_mode_byte env_ok {| rotation := 270 |} []
              (execState (st7789v_pipe_enable env_ok {| rotation := 270 |}) [])
              [ Z.lor ST7789V_MY ST7789V_MV ]) as (Hdata & _ & Hrgb).
  - vm_compute. reflexivity.
  - vm_compute. tauto.
  - split; [ exact Hdata |]. split; [ reflexivity | exact Hrgb ].
Defined.


(** ** ILI9806E: the display mode *)

(** C7: [ili9806e_get_modes] adds exactly one mode to the connector, the
    480x800 mode [nds040480800_v3_mode] under the name it is given, and
    returns 1; when the mode cannot be duplicated it returns [-ENOMEM] and
    leaves the connector as it was. *)
Theorem ili9806e_get_modes_one_mode (formats_ok : bool) (c : drm_connector) :
  (exists c',
     runState (ili9806e_get_modes true formats_ok) c = (1, c') /\
     probed_modes c' =
       probed_modes c ++
       [ {| clock := clock nds040480800_v3_mode
          ; hdisplay := 480
          ; hsync_start := hsync_start nds040480800_v3_mode
          ; hsync_end := hsync_end nds040480800_v3_mode
          ; htotal := htotal nds040480800_v3_mode
          ; vdisplay := 800
          ; vsync_start := vsync_start nds040480800_v3_mode
          ; vsync_end := vsync_end nds040480800_v3_mode
          ; vtotal := vtotal nds040480800_v3_mode
          ; flags := flags nds040480800_v3_mode
          ; type := type nds040480800_v3_mode
          ; width_mm := width_mm nds040480800_v3_mode
          ; height_mm := height_mm nds040480800_v3_mode
          ; name := "480x800" |} ] /\
     info_width_mm (display_info c') = 51 /\
     info_height_mm (display_info c') = 85) /\
  runState (ili9806e_get_modes false formats_ok) c = (- ENOMEM, c).
Proof.
  split; [| reflexivity ].
  destruct formats_ok; eexists; (split; [ reflexivity |]);
    cbn; repeat split.
Qed.


(** * Further properties *)

Import Power.

(** ** ILI9806E: power-state callbacks in sequence *)

Lemma bus_commands_app (l1 l2 : list call) :
  bus_commands (l1 ++ l2) = bus_commands l1 ++ bus_commands l2.
Proof. unfold bus_commands. apply flat_map_app. Qed.

Lemma page_switches_app (l1 l2 : list (Z * list Z)) :
  page_switches (l1 ++ l2) = page_switches l1 ++ page_switches l2.
Proof. unfold page_switches. apply flat_map_app. Qed.

Lemma calls_app (l1 l2 : klog) : calls (l1 ++ l2) = calls l1 ++ calls l2.
Proof. unfold calls. apply map_app. Qed.

Lemma paged_app (l1 l2 : list (Z * list Z)) : forall cur,
  paged cur (l1 ++ l2) = paged cur l1 ++ paged (selected_page cur l1) l2.
Proof.
  induction l1 as [| c l1 IH]; intros cur; [ reflexivity |].
  cbn [app paged]. unfold selected_page. cbn [fold_left].
  destruct (page_switch c) as [p |].
  - apply IH.
  - cbn [app]. f_equal. apply IH.
Qed.

Lemma selected_page_app (l1 l2 : list (Z * list Z)) (cur : option Z) :
  selected_page cur (l1 ++ l2) = selected_page (selected_page cur l1) l2.
Proof. unfold selected_page. apply fold_left_app. Qed.

(** Commands without a page switch among them all see the page selected
    before, and leave it selected. *)
Lemma paged_no_switch (l : list (Z * list Z)) (cur : option Z) :
  page_switches l = [] ->
  paged cur l = map (pair cur) l /\ selected_page cur l = cur.
Proof.
  induction l as [| c l IH]; intros Hno; [ split; reflexivity |].
  unfold page_switches in Hno. cbn [flat_map] in Hno.
  unfold selected_page. cbn [paged fold_left map].
  destruct (page_switch c) as [p |]; [ discriminate Hno |].
  destruct (IH Hno) as [Hp Hs]. split; [ now rewrite Hp | exact Hs ].
Qed.

(** No callback other than prepare switches pages. *)
Lemma run_power_ops_no_switch e ctx (ops : list power_op) : forall h,
  exists new,
    runState (run_power_ops e ctx ops) h = (tt, h ++ new) /\
    page_switches (bus_commands (calls new)) = [].
Proof.
  induction ops as [| op ops IH]; intros h.
  - exists []. rewrite app_nil_r. split; reflexivity.
  - cbn [run_power_ops]. rewrite run_bind.
    assert (Hop : exists n1,
               runState (run_power_op e ctx op) h = (0, h ++ n1) /\
               page_switches (bus_commands (calls n1)) = []).
    { destruct op; cbn [run_power_op].
      - destruct (issues_run _ _ _ h (ili9806e_unprepare_issues e ctx))
          as (n1 & Hrun & Hc).
        exists n1. split; [ exact Hrun | rewrite Hc; reflexivity ].
      - destruct (issues_run _ _ _ h (ili9806e_suspend_issues e ctx))
          as (n1 & Hrun & Hc).
        exists n1. split; [ exact Hrun | rewrite Hc; reflexivity ].
      - destruct (issues_run _ _ _ h (ili9806e_resume_issues e ctx))
          as (n1 & Hrun & Hc).
        exists n1. split; [ exact Hrun | rewrite Hc; reflexivity ]. }
    destruct Hop as (n1 & Hrun1 & Hno1).
    rewrite Hrun1. cbn [fst snd].
    destruct (IH (h ++ n1)) as (n2 & Hrun2 & Hno2).
    exists (n1 ++ n2). rewrite Hrun2, app_assoc.
    split; [ reflexivity |].
    rewrite calls_app, bus_commands_app, page_switches_app, Hno1, Hno2.
    reflexivity.
Qed.

(** X2: whatever page was selected before, [ili9806e_prepare] leaves
    page 0 selected, and no later unprepare, suspend or resume changes
    that: in any sequence of these callbacks after a prepare, every bus
    command is issued with page 0 selected, where it is a standard DCS
    command, and page 0 is still selected at the end. *)
Theorem ili9806e_power_ops_in_page_0 (e : Env) (ctx : ili9806e)
  (ops : list power_op) (h : klog) (cur : option Z) :
  exists n1 n2,
    runState (ili9806e_prepare e ctx ;; run_power_ops e ctx ops) h =
      (tt, h ++ n1 ++ n2) /\
    runState (ili9806e_prepare e ctx) h = (0, h ++ n1) /\
    paged cur (bus_commands (calls (n1 ++ n2))) =
      paged cur (bus_commands (calls n1))
      ++ map (pair (Some 0)) (bus_commands (calls n2)) /\
    selected_page cur (bus_commands (calls (n1 ++ n2))) = Some 0.
Proof.
  destruct (issues_run _ _ _ h (ili9806e_prepare_issues e ctx))
    as (n1 & Hrun1 & Hc1).
  destruct (run_power_ops_no_switch e ctx ops (h ++ n1))
    as (n2 & Hrun2 & Hno).
  exists n1, n2.
  assert (Hsel : selected_page cur (bus_commands (calls n1)) = Some 0).
  { rewrite Hc1. generalize (reset (dbi ctx)). intros rst.
    destruct cur; vm_compute; reflexivity. }
  destruct (paged_no_switch _ (Some 0) Hno) as [Hp Hs].
  split; [| split; [ exact Hrun1 | split ]].
  - rewrite run_bind, Hrun1. cbn [fst snd].
    rewrite Hrun2, app_assoc. reflexivity.
  - rewrite calls_app, bus_commands_app, paged_app, Hsel, Hp. reflexivity.
  - rewrite calls_app, bus_commands_app, selected_page_app, Hsel. exact Hs.
Qed.

(** ** Probe: what a run leaves behind *)

Ltac registered_entry Hin Hreg :=
  cbn [In] in Hin;
  repeat (destruct Hin as [Hin | Hin];
          [ inversion Hin; subst; clear Hin;
            first [ discriminate Hreg | reflexivity | congruence ] |]);
  contradiction.

(** X3: a probe returns 0 exactly when it has registered with the display
    framework and the registration went through: a failed probe leaves
    nothing registered, and nothing after a registration can turn a probe
    into a failure. *)
Theorem probe_zero_iff_registered (d : driver) (e : Env) (h : klog)
  (r : Z) (new : klog) :
  runState (probe d e) h = (r, h ++ new) ->
  (r = 0 <-> exists reg, registers reg = true /\ In (reg, 0) new).
Proof.
  intros Hrun. destruct d; cbn [probe] in Hrun.
  - apply ili9806e_probe_outcomes in Hrun.
    inversion Hrun; subst; unfold ili9806e_probe_setup; cbn [app];
      (split;
       [ intros Hr
       | intros (reg & Hreg & Hin); registered_entry Hin Hreg ]);
      try discriminate Hr; try congruence;
      try (subst; discriminate).
    exists Drm_panel_add. split; [ reflexivity |]. cbn. tauto.
  - apply st7789v_probe_outcomes in Hrun.
    inversion Hrun; subst; unfold st7789v_probe_acquired; cbn [app];
      (split;
       [ intros Hr
       | intros (reg & Hreg & Hin); registered_entry Hin Hreg ]);
      try discriminate Hr; try congruence;
      try (subst; discriminate).
    exists Drm_dev_register. split; [ reflexivity |]. cbn. tauto.
Qed.

(** The ST7789V probe on a kernel where every call succeeds. *)
Lemma probe_zero_iff_registered_witness :
  evalState (probe ST7789V env_ok) [] = 0 <->
  exists reg, registers reg = true /\
              In (reg, 0) (execState (probe ST7789V env_ok) []).
Proof.
  apply (probe_zero_iff_registered ST7789V env_ok []
           (evalState (probe ST7789V env_ok) [])
           (execState (probe ST7789V env_ok) [])).
  vm_compute. reflexivity.
Defined.

Ltac split_at n :=
  match goal with
  | |- exists pre c post, ?l = _ /\ _ =>
      exists (firstn n l), (fst (nth n l (Drm_panel_init, 0))),
             (skipn (S n) l)
  end;
  cbn [firstn skipn nth fst];
  split; [ reflexivity |]; split; [ reflexivity |];
  repeat constructor.

(** X4: a failing probe returns the status of the last kernel call it
    made before reporting the error, unchanged; the one code a probe
    makes up itself is [-ENOMEM], in the ILI9806E probe, when
    [devm_kzalloc] returns [NULL], and then nothing else is called. *)
Theorem probe_error_code_provenance (d : driver) (e : Env) (h : klog)
  (r : Z) (new : klog) :
  runState (probe d e) h = (r, h ++ new) ->
  r <> 0 ->
  (d = ILI9806E /\ r = - ENOMEM /\ new = [ (Devm_kzalloc, NULL) ]) \/
  (exists pre c post,
     new = pre ++ (c, r) :: post /\
     reports c = false /\
     Forall (fun cr => reports (fst cr) = true) post).
Proof.
  intros Hrun Hr. destruct d; cbn [probe] in Hrun.
  - apply ili9806e_probe_outcomes in Hrun.
    inversion Hrun; subst; unfold ili9806e_probe_setup; cbn [app];
      try contradiction.
    + left. auto.
    + right. split_at 3%nat.
    + right. split_at 4%nat.
    + right. split_at 5%nat.
  - apply st7789v_probe_outcomes in Hrun.
    inversion Hrun; subst; unfold st7789v_probe_acquired; cbn [app];
      try contradiction; right.
    + split_at 0%nat.
    + split_at 1%nat.
    + split_at 2%nat.
    + split_at 5%nat.
    + split_at 6%nat.
    + split_at 8%nat.
Qed.

(** The ST7789V probe with a bus initialisation that fails with [-EIO]. *)
Lemma probe_error_code_provenance_witness :
  (ST7789V = ILI9806E /\ - EIO = - ENOMEM /\
   execState (probe ST7789V env_spi_eio) [] = [ (Devm_kzalloc, NULL) ]) \/
  (exists pre c post,
     execState (probe ST7789V env_spi_eio) [] = pre ++ (c, - EIO) :: post /\
     reports c = false /\
     Forall (fun cr => reports (fst cr) = true) post).
Proof.
  apply (probe_error_code_provenance ST7789V env_spi_eio [] (- EIO)
           (execState (probe ST7789V env_spi_eio) [])).
  - vm_compute. reflexivity.
  - discriminate.
Defined.




Ltac which_entry Hin :=
  cbn [In] in Hin;
  repeat (destruct Hin as [Hin | Hin];
          [ first [ discriminate Hin | inversion Hin; subst; clear Hin ] |]);
  try contradiction.

(** X6: a failed read of the [rotation] property does not fail
    [st7789v_probe].  Whatever the read returns, the probe goes on to
    [mipi_dbi_spi_init], and what it returns is decided by that call and
    the ones after it alone; the read only chooses the rotation handed to
    [mipi_dbi_dev_init]: the value read when the read succeeded, 0 when
    it failed. *)
Theorem st7789v_probe_rotation_default (e : Env) (h : klog) (r : Z)
  (new : klog) (out status : Z) :
  runState (st7789v_probe e) h = (r, h ++ new) ->
  In (Device_property_read_u32 "rotation" out, status) new ->
  exists dc a,
    In (Mipi_dbi_spi_init dc, a) new /\
    (a <> 0 -> r = a) /\
    (a = 0 ->
     exists b,
       In (Mipi_dbi_dev_init (if status =? 0 then out else 0), b) new /\
       (b <> 0 -> r = b) /\
       (b = 0 -> exists c, In (Drm_dev_register, c) new /\ r = c)).
Proof.
  intros Hrun Hin. apply st7789v_probe_outcomes in Hrun.
  inversion Hrun; subst; unfold st7789v_probe_acquired in *;
    cbn [app] in *; which_entry Hin.
  - exists dc, r. split; [ cbn; tauto |].
    split; [ reflexivity | intros; contradiction ].
  - exists dc, 0. split; [ cbn; tauto |].
    split; [ intros Hne; now elim Hne |]. intros _.
    exists r. split; [ cbn; tauto |].
    split; [ reflexivity | intros; contradiction ].
  - exists dc, 0. split; [ cbn; tauto |].
    split; [ intros Hne; now elim Hne |]. intros _.
    exists 0. split; [ cbn; tauto |].
    split; [ intros Hne; now elim Hne |]. intros _.
    exists r. split; [ cbn; tauto | reflexivity ].
  - exists dc, 0. split; [ cbn; tauto |].
    split; [ intros Hne; now elim Hne |]. intros _.
    exists 0. split; [ cbn; tauto |].
    split; [ intros Hne; now elim Hne |]. intros _.
    exists 0. split; [ cbn; tauto | reflexivity ].
Qed.

(** A device without a [rotation] property: the read fails with
    [-EINVAL], every later call succeeds, the display is initialised with
    rotation 0, not with the 270 a successful read would have stored, and
    the probe returns 0. *)
Lemma st7789v_probe_rotation_default_witness :
  In (Device_property_read_u32 "rotation" 270, -22)
     (execState (st7789v_probe env_no_rotation) []) /\
  exists dc a,
    In (Mipi_dbi_spi_init dc, a)
       (execState (st7789v_probe env_no_rotation) []) /\
    (a <> 0 -> 0 = a) /\
    (a = 0 ->
     exists b,
       In (Mipi_dbi_dev_init 0, b)
          (execState (st7789v_probe env_no_rotation) []) /\
       (b <> 0 -> 0 = b) /\
       (b = 0 ->
        exists c,
          In (Drm_dev_register, c)
             (execState (st7789v_probe env_no_rotation) []) /\
          0 = c)).
Proof.
  split; [ vm_compute; tauto |].
  apply (st7789v_probe_rotation_default env_no_rotation [] 0
           (execState (st7789v_probe env_no_rotation) []) 270 (-22)).
  - vm_compute. reflexivity.
  - vm_compute. tauto.
Defined.

(** X7: the data-command line a probe hands to [mipi_dbi_spi_init] is
    never an error pointer: the ILI9806E probe always passes [NULL], the
    ST7789V probe passes what its lookup of the [dc] line returned, which
    is [NULL] when the device has no such line. *)
Theorem probe_bus_init_dc (d : driver) (e : Env) (h : klog) (r : Z)
  (new : klog) (dc a : Z) :
  runState (probe d e) h = (r, h ++ new) ->
  In (Mipi_dbi_spi_init dc, a) new ->
  IS_ERR dc = false /\
  match d with
  | ILI9806E => dc = NULL
  | ST7789V => In (Devm_gpiod_get_optional "dc" GPIOD_OUT_LOW, dc) new
  end.
Proof.
  intros Hrun Hin. destruct d; cbn [probe] in Hrun.
  - apply ili9806e_probe_outcomes in Hrun.
    inversion Hrun; subst; unfold ili9806e_probe_setup in *;
      cbn [app] in *; which_entry Hin; split; reflexivity.
  - apply st7789v_probe_outcomes in Hrun.
    inversion Hrun; subst; unfold st7789v_probe_acquired in *;
      cbn [app] in *; which_entry Hin;
      (split; [ assumption | cbn; tauto ]).
Qed.

(** The ST7789V probe on a device without GPIO lines. *)
Lemma probe_bus_init_dc_witness :
  IS_ERR NULL = false /\
  In (Devm_gpiod_get_optional "dc" GPIOD_OUT_LOW, NULL)
     (execState (probe ST7789V env_no_gpio) []).
Proof.
  apply (probe_bus_init_dc ST7789V env_no_gpio []
           (evalState (probe ST7789V env_no_gpio) [])
           (execState (probe ST7789V env_no_gpio) []) NULL 0).
  - vm_compute. reflexivity.
  - vm_compute. tauto.
Defined.

(** X8: the ST7789V probe sets the driver data of the SPI device, which
    [st7789v_remove] and [st7789v_shutdown] read back, and sets up the
    fbdev emulation exactly when it returns 0, and then right after
    [drm_dev_register].  The ILI9806E probe sets the driver data as its
    third call, after the allocation and [drm_panel_init] and before it
    acquires anything, in every run that gets past the allocation, failed
    or not, and only once. *)
Theorem probe_sets_drvdata (d : driver) (e : Env) (h : klog) (r : Z)
  (new : klog) :
  runState (probe d e) h = (r, h ++ new) ->
  match d with
  | ST7789V =>
      (In Spi_set_drvdata (calls new) <-> r = 0) /\
      (In Drm_fbdev_generic_setup (calls new) <-> r = 0) /\
      (r = 0 ->
       exists pre,
         new = pre ++ [ (Drm_dev_register, 0); (Spi_set_drvdata, 0)
                      ; (Drm_fbdev_generic_setup, 0)
                      ; (Dev_info "St7789 driver added", 0) ] /\
         ~ In Spi_set_drvdata (calls pre))
  | ILI9806E =>
      new = [ (Devm_kzalloc, NULL) ] \/
      exists ctx rest,
        ctx <> NULL /\
        new = (Devm_kzalloc, ctx) :: (Drm_panel_init, 0)
              :: (Spi_set_drvdata, 0) :: rest /\
        ~ In Spi_set_drvdata (calls rest) /\
        (forall c a res,
           In (c, a) new -> acquires c = Some res -> In (c, a) rest)
  end.
Proof.
  intros Hrun. destruct d; cbn [probe] in Hrun.
  - apply ili9806e_probe_outcomes in Hrun.
    inversion Hrun; subst; unfold ili9806e_probe_setup; cbn [app];
      [ now left | right .. ];
      (eexists _, _; (split; [| split; [ reflexivity |] ]);
       [ assumption |]; split;
       [ cbn; intuition discriminate
       | intros c a res Hin Hacq; cbn [In] in Hin;
         destruct Hin as [Hin | [Hin | [Hin | Hin]]];
         [ inversion Hin; subst; discriminate Hacq
         | inversion Hin; subst; discriminate Hacq
         | inversion Hin; subst; discriminate Hacq
         | exact Hin ] ]).
  - apply st7789v_probe_outcomes in Hrun.
    inversion Hrun; subst; unfold st7789v_probe_acquired; cbn [app];
      (split; [| split ];
       [ split; [ intros Hin | intros Hr ]
       | split; [ intros Hin | intros Hr ]
       | intros Hr ]);
      try (cbn in Hin; intuition discriminate);
      try reflexivity; try (cbn; tauto);
      try contradiction; try (subst; discriminate).
    match goal with
    | |- exists pre, ?l = _ /\ _ => exists (firstn 8 l)
    end.
    split; [ reflexivity |]. cbn. intuition discriminate.
Qed.

(** The ILI9806E probe failing at the bus initialisation, after it has
    set its driver data, and the ST7789V probe failing there, which has
    set none. *)
Lemma probe_sets_drvdata_witness :
  (execState (probe ILI9806E env_spi_eio) [] = [ (Devm_kzalloc, NULL) ] \/
   exists ctx rest,
     ctx <> NULL /\
     execState (probe ILI9806E env_spi_eio) [] =
       (Devm_kzalloc, ctx) :: (Drm_panel_init, 0)
       :: (Spi_set_drvdata, 0) :: rest /\
     ~ In Spi_set_drvdata (calls rest) /\
     (forall c a res,
        In (c, a) (execState (probe ILI9806E env_spi_eio) []) ->
        acquires c = Some res -> In (c, a) rest)) /\
  ~ In Spi_set_drvdata (calls (execState (probe ST7789V env_spi_eio) [])).
Proof.
  split.
  - apply (probe_sets_drvdata ILI9806E env_spi_eio []
             (evalState (probe ILI9806E env_spi_eio) [])
             (execState (probe ILI9806E env_spi_eio) [])).
    vm_compute. reflexivity.
  - intros Hin.
    assert (Hr : - EIO = 0); [| discriminate Hr ].
    refine (proj1 (proj1 (probe_sets_drvdata ST7789V env_spi_eio [] (- EIO)
                            (execState (probe ST7789V env_spi_eio) []) _))
              Hin).
    vm_compute. reflexivity.
Defined.

(** ** ST7789V: entering and leaving the device *)

(** In a run that entered the device, the entries of the log that are
    not the first three, nor the [drm_dev_exit], are the init sequence and
    what follows it. *)
Lemma st7789v_tail_entry (dbidev : mipi_dbi_dev) (tail : klog)
  (c : call) (a : Z) :
  calls tail = st7789v_init_sequence (rotation dbidev)
               ++ [Msleep 20; Mipi_dbi_enable_flush] ->
  In (c, a) tail ->
  In c (st7789v_init_sequence (rotation dbidev)
        ++ [Msleep 20; Mipi_dbi_enable_flush]).
Proof.
  intros Htail Hin. rewrite <- Htail. unfold calls.
  exact (in_map fst _ _ Hin).
Qed.

(** X9: when [drm_dev_enter] returns false, [st7789v_pipe_enable] does
    nothing else: no reset, no bus command, no flush. *)
Theorem st7789v_pipe_enable_not_entered (e : Env) (dbidev : mipi_dbi_dev)
  (h new : klog) (idx : Z) :
  runState (st7789v_pipe_enable e dbidev) h = (tt, h ++ new) ->
  In (Drm_dev_enter idx, 0) new ->
  new = [ (Drm_dev_enter idx, 0) ].
Proof.
  intros Hrun Hin.
  apply st7789v_pipe_enable_runs in Hrun
    as [(idx' & ->) | (idx' & entered & rst & tail & Hent & -> & Htail)].
  - which_entry Hin. reflexivity.
  - exfalso. cbn [In] in Hin.
    destruct Hin as [Hin | [Hin | [Hin | Hin]]]; try discriminate Hin.
    + inversion Hin; subst. now apply Hent.
    + apply in_app_or in Hin as [Hin | Hin].
      * destruct (rst =? 0); which_entry Hin.
      * apply (st7789v_tail_entry dbidev tail _ _ Htail) in Hin.
        cbn in Hin. intuition discriminate.
Qed.

(** A device that has been unplugged. *)
Lemma st7789v_pipe_enable_not_entered_witness :
  execState (st7789v_pipe_enable env_gone {| rotation := 0 |}) [] =
  [ (Drm_dev_enter 0, 0) ].
Proof.
  apply (st7789v_pipe_enable_not_entered env_gone {| rotation := 0 |} []
           (execState (st7789v_pipe_enable env_gone {| rotation := 0 |}) [])
           0).
  - vm_compute. reflexivity.
  - vm_compute. tauto.
Defined.

(** X10: when the reset succeeds, [st7789v_pipe_enable] runs to the
    flush and returns without ever calling [drm_dev_exit], although
    [drm_dev_enter] had returned true. *)
Theorem st7789v_pipe_enable_never_exits (e : Env) (dbidev : mipi_dbi_dev)
  (h new : klog) :
  runState (st7789v_pipe_enable e dbidev) h = (tt, h ++ new) ->
  In (Mipi_dbi_poweron_reset, 0) new ->
  (exists idx entered, In (Drm_dev_enter idx, entered) new /\ entered <> 0) /\
  In Mipi_dbi_enable_flush (calls new) /\
  forall idx, ~ In (Drm_dev_exit idx) (calls new).
Proof.
  intros Hrun Hin.
  apply st7789v_pipe_enable_runs in Hrun
    as [(idx' & ->) | (idx' & entered & rst & tail & Hent & -> & Htail)].
  - which_entry Hin.
  - assert (Hrst : rst = 0).
    { cbn [In] in Hin.
      destruct Hin as [Hin | [Hin | [Hin | Hin]]]; try discriminate Hin.
      - now inversion Hin.
      - exfalso. apply in_app_or in Hin as [Hin | Hin].
        + destruct (rst =? 0); which_entry Hin.
        + apply (st7789v_tail_entry dbidev tail _ _ Htail) in Hin.
          cbn in Hin. intuition discriminate. }
    subst rst. cbn [Z.eqb app].
    split; [ exists idx', entered; split; [ cbn; tauto | exact Hent ] |].
    unfold calls in *. cbn [map fst]. rewrite Htail.
    split; [ cbn; tauto |].
    intros idx Hexit. cbn in Hexit. intuition discriminate.
Qed.

(** A kernel where every call succeeds. *)
Lemma st7789v_pipe_enable_never_exits_witness :
  In Mipi_dbi_enable_flush
     (calls (execState
               (st7789v_pipe_enable env_ok {| rotation := 0 |}) [])) /\
  forall idx,
    ~ In (Drm_dev_exit idx)
        (calls (execState
                  (st7789v_pipe_enable env_ok {| rotation := 0 |}) [])).
Proof.
  refine (proj2 (st7789v_pipe_enable_never_exits env_ok
                   {| rotation := 0 |} []
                   (execState
                      (st7789v_pipe_enable env_ok {| rotation := 0 |}) [])
                   _ _)).
  - vm_compute. reflexivity.
  - vm_compute. tauto.
Defined.

(** ** ILI9806E: the bus format *)

(** X11: [ili9806e_get_modes] ignores the result of
    [drm_display_info_set_bus_formats]: when the mode was duplicated it
    adds the mode, records the panel size and returns 1 whether or not
    the bus format could be stored; the connector ends up with the single
    format RGB666_1X18 when it could, and keeps the formats it had when
    it could not. *)
Theorem ili9806e_get_modes_bus_format (formats_ok : bool)
  (c : drm_connector) :
  exists c',
    runState (ili9806e_get_modes true formats_ok) c = (1, c') /\
    List.length (probed_modes c') = S (List.length (probed_modes c)) /\
    info_width_mm (display_info c') = width_mm nds040480800_v3_mode /\
    info_height_mm (display_info c') = height_mm nds040480800_v3_mode /\
    bus_formats (display_info c') =
      (if formats_ok then [ MEDIA_BUS_FMT_RGB666_1X18 ]
       else bus_formats (display_info c)).
Proof.
  destruct formats_ok; eexists; (split; [ reflexivity |]); cbn;
    rewrite length_app, Nat.add_comm; repeat split.
Qed.
